(** * 2d-ball-bounce-sim: collision detector, container geometry and
      ball lifecycle, embedded in Rocq.

    The C++ sources compute on [float].  The embedding idealises every
    [float] as a real number of [R]: a float literal is the rational it
    denotes ([0.0001f] is [1/10000]), and [+ - * /], [std::sqrt],
    [std::cos] and [std::sin] are the exact real operations.  Rounding,
    infinities and NaN are outside the model.  Integer data ([int],
    [size_t]) is modelled on [Z] with the wrap-around written out. *)

From Stdlib Require Import Reals Lra Lia ZArith List Bool.
Import ListNotations.

Local Open Scope R_scope.

(** ** Comparisons of reals as booleans

    A C++ comparison of two floats yields a [bool]; the real order is
    decided by [Rlt_dec] and [Rle_dec]. *)

Definition Rltb (a b : R) : bool := if Rlt_dec a b then true else false.
Definition Rleb (a b : R) : bool := if Rle_dec a b then true else false.

(** ** math/Vector2D.h *)

Module Vector2D.

Record t : Type := mk { x : R; y : R }.

(** Modelled from the spec: math/Vector2D.h is not among the sources.
    The spec lists "2D vector arithmetic" among the leaf primitives; the
    operators below are the componentwise ones the callers rely on
    ([a - b], [a + b], [v * s], [v / s], [dot], [magnitudeSquared],
    [magnitude], [distance]). *)
Definition sub (a b : t) : t := mk (x a - x b) (y a - y b).
Definition add (a b : t) : t := mk (x a + x b) (y a + y b).
Definition scale (v : t) (s : R) : t := mk (x v * s) (y v * s).
Definition div (v : t) (s : R) : t := mk (x v / s) (y v / s).
Definition dot (a b : t) : R := x a * x b + y a * y b.
Definition magnitudeSquared (v : t) : R := x v * x v + y v * y v.
Definition magnitude (v : t) : R := sqrt (magnitudeSquared v).
Definition distance (a b : t) : R := magnitude (sub a b).

(** Modelled from the spec: [Vector2D::normalized] is not among the
    sources.  The spec has every normal computation guard the division
    by a near-zero magnitude (threshold about 1e-4) and fall back to a
    default; the default taken here is the zero vector. *)
Definition normalized (v : t) : t :=
  if Rltb (1 / 10000) (magnitude v) then div v (magnitude v) else mk 0 0.

Definition zero : t := mk 0 0.

End Vector2D.

Abbreviation Vec := Vector2D.t.

(** ** math/MathUtils.h *)

Module MathUtils.

Definition TWO_PI : R := 2 * PI.

(** Modelled from the spec: [MathUtils::clamp] is not among the sources;
    the spec has the projection "clamped to [0, edgeLength]". *)
Definition clamp (v lo hi : R) : R :=
  if Rltb v lo then lo else if Rltb hi v then hi else v.

(** Modelled from the spec: [MathUtils::degToRad] is not among the
    sources; degrees to radians. *)
Definition degToRad (deg : R) : R := deg * PI / 180.

(** Modelled from the spec: [MathUtils::normalizeAngle] is not among the
    sources; the spec has the angle "wrapped into [0, 2 pi)".  The
    wrapped angle is the input minus the whole number of turns it
    contains. *)
Definition normalizeAngle (angle : R) : R :=
  angle - IZR (Int_part (angle / TWO_PI)) * TWO_PI.

End MathUtils.

(** ** Ball and CollisionInfo *)

Record SDL_Color : Type := mkColor { cr : Z; cg : Z; cb : Z; ca : Z }.

(** Modelled from the spec: Ball.h is not among the sources.  The spec's
    Body has a position, a velocity, a radius, a mass derived as
    [pi * radius^2], and an opaque colour. *)
Module Ball.

Record t : Type := mk {
  position : Vec;
  velocity : Vec;
  radius : R;
  mass : R;
  color : SDL_Color
}.

(** The constructor [Ball(position, velocity, radius, color)]. *)
Definition make (position velocity : Vec) (radius : R)
    (color : SDL_Color) : t :=
  mk position velocity radius (PI * radius * radius) color.

End Ball.

Record CollisionInfo : Type := mkInfo {
  hasCollision : bool;
  normal : Vec;
  penetration : R
}.

(** Modelled from the spec: CollisionDetector.h is not among the sources.
    A default-constructed [CollisionInfo] is the spec's "no contact": the
    flag is false, the normal and the penetration are zero. *)
Definition noCollision : CollisionInfo := mkInfo false Vector2D.zero 0.

(** ** physics/Container.h and Container.cpp (unnamed/part_003) *)

Record Edge : Type := mkEdge {
  start : Vec;
  end_ : Vec;
  sideIndex : Z;
  hasGap : bool
}.

(** [a[i]] on a [std::array]: an index outside the array is undefined
    behaviour, rendered as [None]. *)
Definition array_at {A : Type} (a : list A) (i : Z) : option A :=
  if (i <? 0)%Z then None else nth_error a (Z.to_nat i).

Module Container.

Record t : Type := mk {
  center : Vec;
  sideLength : R;
  gapSizeFraction : R;
  gapSide : Z;
  rotationSpeed : R;
  currentAngleRad : R
}.

(** The constructor, part_003 lines 53-61. *)
Definition make (center : Vec) (sideLength gapSizeFraction : R)
    (gapSide : Z) : t :=
  mk center sideLength gapSizeFraction gapSide (360 / 10) 0.

Definition getCenter (c : t) : Vec := center c.

(** [Container::update], part_003 lines 63-70. *)
Definition update (deltaTime : R) (c : t) : t :=
  let deltaAngleDeg := rotationSpeed c * deltaTime in
  let angle := currentAngleRad c + MathUtils.degToRad deltaAngleDeg in
  mk (center c) (sideLength c) (gapSizeFraction c) (gapSide c)
     (rotationSpeed c) (MathUtils.normalizeAngle angle).

(** [Container::getWorldCorners], part_003 lines 108-132. *)
Definition getWorldCorners (c : t) : list Vec :=
  let halfSize := sideLength c / 2 in
  let localCorners :=
    [ Vector2D.mk halfSize (- halfSize);
      Vector2D.mk halfSize halfSize;
      Vector2D.mk (- halfSize) halfSize;
      Vector2D.mk (- halfSize) (- halfSize) ] in
  let cosAngle := cos (currentAngleRad c) in
  let sinAngle := sin (currentAngleRad c) in
  map (fun lc =>
         let rotatedX :=
           Vector2D.x lc * cosAngle - Vector2D.y lc * sinAngle in
         let rotatedY :=
           Vector2D.x lc * sinAngle + Vector2D.y lc * cosAngle in
         Vector2D.mk (Vector2D.x (center c) + rotatedX)
                     (Vector2D.y (center c) + rotatedY))
      localCorners.

(** [Container::getWorldEdges], part_003 lines 134-152.  The indices
    [i] and [(i + 1) % 4] stay inside the four corners. *)
Definition getWorldEdges (c : t) : list Edge :=
  let corners := getWorldCorners c in
  map (fun i : Z =>
         mkEdge (nth (Z.to_nat i) corners Vector2D.zero)
                (nth (Z.to_nat ((i + 1) mod 4)) corners Vector2D.zero)
                i
                (i =? gapSide c)%Z)
      [0; 1; 2; 3]%Z.

(** [Container::getGapBoundaries], part_003 lines 154-169; the pair is
    [(gapStart, gapEnd)]. *)
Definition getGapBoundaries (c : t) : option (Vec * Vec) :=
  match array_at (getWorldEdges c) (gapSide c) with
  | None => None
  | Some gapEdge =>
      let edgeVector := Vector2D.sub (end_ gapEdge) (start gapEdge) in
      let edgeLength := Vector2D.magnitude edgeVector in
      let gapLength := edgeLength * gapSizeFraction c in
      let gapStartDist := (edgeLength - gapLength) / 2 in
      let gapEndDist := gapStartDist + gapLength in
      let edgeDir := Vector2D.normalized edgeVector in
      Some (Vector2D.add (start gapEdge)
                         (Vector2D.scale edgeDir gapStartDist),
            Vector2D.add (start gapEdge)
                         (Vector2D.scale edgeDir gapEndDist))
  end.

(** [setGapSizeFraction] and [setSideLength], part_003 lines 38-39. *)
Definition setGapSizeFraction (fraction : R) (c : t) : t :=
  mk (center c) (sideLength c) fraction (gapSide c) (rotationSpeed c)
     (currentAngleRad c).

Definition setSideLength (newSideLength : R) (c : t) : t :=
  mk (center c) newSideLength (gapSizeFraction c) (gapSide c)
     (rotationSpeed c) (currentAngleRad c).


(** [Container::isPointInGap], part_003 lines 85-106; [None] is the
    undefined behaviour of [edges[gapSide]] outside the array. *)
Definition isPointInGap (c : t) (point : Vec) : option bool :=
  match getGapBoundaries c with
  | None => None
  | Some (gapStart, gapEnd) =>
      match array_at (getWorldEdges c) (gapSide c) with
      | None => None
      | Some gapEdge =>
          let toPoint := Vector2D.sub point (start gapEdge) in
          let edgeDir :=
            Vector2D.normalized
              (Vector2D.sub (end_ gapEdge) (start gapEdge)) in
          let projection := Vector2D.dot toPoint edgeDir in
          let closestPoint :=
            Vector2D.add (start gapEdge)
                         (Vector2D.scale edgeDir projection) in
          let distToGapStart := Vector2D.distance closestPoint gapStart in
          let distToGapEnd := Vector2D.distance closestPoint gapEnd in
          let gapLength := Vector2D.distance gapStart gapEnd in
          Some (Rleb (distToGapStart + distToGapEnd)
                     (gapLength + 1 / 100))
      end
  end.

End Container.

(** ** physics/CollisionDetector.cpp, ball against container

    Lines 41-91 of the loop body are the same text in
    src/physics/CollisionDetector.cpp and in unnamed/part_002: they are
    embedded once, as [probeEdge]. *)

(** [FLT_MAX] of <cfloat>: (2^24 - 1) * 2^104. *)
Definition FLT_MAX : R := 340282346638528859811704183484516925440.

(** Lines 41-53: the point of the segment closest to the ball's centre. *)
Definition closestPointOnEdge (ball : Ball.t) (edge : Edge) : Vec :=
  let edgeVector := Vector2D.sub (end_ edge) (start edge) in
  let edgeLength := Vector2D.magnitude edgeVector in
  let edgeDir := Vector2D.div edgeVector edgeLength in
  let toBall := Vector2D.sub (Ball.position ball) (start edge) in
  let projection := Vector2D.dot toBall edgeDir in
  let projection := MathUtils.clamp projection 0 edgeLength in
  Vector2D.add (start edge) (Vector2D.scale edgeDir projection).

(** Lines 57-62: the gap test on the closest point. *)
Definition inGapSpan (closestPoint gapStart gapEnd : Vec) : bool :=
  let distToGapStart := Vector2D.distance closestPoint gapStart in
  let distToGapEnd := Vector2D.distance closestPoint gapEnd in
  let gapLength := Vector2D.distance gapStart gapEnd in
  Rleb (distToGapStart + distToGapEnd) (gapLength + 1 / 2).

(** What lines 68-91 leave in scope for the rest of the body. *)
Record EdgeProbe : Type := mkProbe {
  toBallFromEdge : Vec;
  distance : R;
  edgePerp : Vec;
  ballIsInside : bool
}.

(** Lines 41-91; [None] is a [continue]. *)
Definition probeEdge (ball : Ball.t) (container : Container.t)
    (gapStart gapEnd : Vec) (edge : Edge) : option EdgeProbe :=
  let edgeVector := Vector2D.sub (end_ edge) (start edge) in
  let edgeLength := Vector2D.magnitude edgeVector in
  if Rltb edgeLength (1 / 10000) then None
  else
    let edgeDir := Vector2D.div edgeVector edgeLength in
    let closestPoint := closestPointOnEdge ball edge in
    if hasGap edge && inGapSpan closestPoint gapStart gapEnd then None
    else
      let toBallFromEdge := Vector2D.sub (Ball.position ball) closestPoint in
      let distance := Vector2D.magnitude toBallFromEdge in
      let edgePerp :=
        Vector2D.mk (- Vector2D.y edgeDir) (Vector2D.x edgeDir) in
      let edgeCenter :=
        Vector2D.scale (Vector2D.add (start edge) (end_ edge)) (1 / 2) in
      let centerToEdge :=
        Vector2D.sub edgeCenter (Container.getCenter container) in
      let edgePerp :=
        if Rltb (Vector2D.dot edgePerp centerToEdge) 0
        then Vector2D.scale edgePerp (-1) else edgePerp in
      let ballIsInside :=
        if Rltb (1 / 10000) distance
        then Rltb (Vector2D.dot (Vector2D.div toBallFromEdge distance)
                                edgePerp) 0
        else true in
      Some (mkProbe toBallFromEdge distance edgePerp ballIsInside).

(** ** physics/CollisionDetector.cpp, the three files

    [checkBallCollision] exists in three files and
    [checkContainerCollision] on the square container in two; each module
    follows its own file. *)

Module Baseline.

(** src/physics/CollisionDetector.cpp, lines 6-24. *)
Definition checkBallCollision (ballA ballB : Ball.t) : CollisionInfo :=
  let delta := Vector2D.sub (Ball.position ballB) (Ball.position ballA) in
  let distanceSquared := Vector2D.magnitudeSquared delta in
  let combinedRadius := Ball.radius ballA + Ball.radius ballB in
  let combinedRadiusSquared := combinedRadius * combinedRadius in
  if Rltb distanceSquared combinedRadiusSquared
     && Rltb (1 / 10000) distanceSquared
  then
    let distance := sqrt distanceSquared in
    mkInfo true (Vector2D.div delta distance) (combinedRadius - distance)
  else noCollision.

(** Lines 98-126: the contact this edge proposes, as
    [(penetration, normal)]. *)
Definition edgeContact (ball : Ball.t) (p : EdgeProbe) : option (R * Vec) :=
  if (ballIsInside p && Rltb (distance p) (Ball.radius ball))
     || negb (ballIsInside p)
  then
    if ballIsInside p then
      Some (Ball.radius ball - distance p,
            if Rltb (1 / 10000) (distance p)
            then Vector2D.scale
                   (Vector2D.div (toBallFromEdge p) (distance p)) (-1)
            else edgePerp p)
    else
      Some (Ball.radius ball + distance p,
            if Rltb (1 / 10000) (distance p)
            then Vector2D.div (toBallFromEdge p) (distance p)
            else edgePerp p)
  else None.

(** One turn of the loop of lines 39-137 on the pair
    [(bestCollision, minPenetration)]. *)
Definition edgeStep (ball : Ball.t) (container : Container.t)
    (gapStart gapEnd : Vec) (acc : CollisionInfo * R) (edge : Edge)
    : CollisionInfo * R :=
  match probeEdge ball container gapStart gapEnd edge with
  | None => acc
  | Some p =>
      match edgeContact ball p with
      | None => acc
      | Some (penetration, normal) =>
          if Rltb penetration (snd acc)
          then (mkInfo true normal penetration, penetration)
          else acc
      end
  end.

(** src/physics/CollisionDetector.cpp, lines 26-140. *)
Definition checkContainerCollision (ball : Ball.t)
    (container : Container.t) : option CollisionInfo :=
  match Container.getGapBoundaries container with
  | None => None
  | Some (gapStart, gapEnd) =>
      Some (fst (fold_left (edgeStep ball container gapStart gapEnd)
                           (Container.getWorldEdges container)
                           (noCollision, FLT_MAX)))
  end.

End Baseline.

Module Rev001.

(** unnamed/part_001, lines 5-23. *)
Definition checkBallCollision (a b : Ball.t) : CollisionInfo :=
  let delta := Vector2D.sub (Ball.position b) (Ball.position a) in
  let distanceSquared := Vector2D.magnitudeSquared delta in
  let combinedRadius := Ball.radius a + Ball.radius b in
  let combinedRadiusSquared := combinedRadius * combinedRadius in
  if Rltb distanceSquared combinedRadiusSquared
     && Rltb (1 / 10000) distanceSquared
  then
    let distance := sqrt distanceSquared in
    mkInfo true (Vector2D.div delta distance) (combinedRadius - distance)
  else noCollision.

Section CircularContainer.

(** The container of this revision is a circle with an angular gap; its
    class is not among the sources.  Its accessors, [std::atan2] and
    [MathUtils::isAngleInRange] are parameters. *)
Variable CircleContainer : Type.
Variable getCenter : CircleContainer -> Vec.
Variable getRadius : CircleContainer -> R.
Variable getGapStartAngle getGapEndAngle : CircleContainer -> R.
Variable atan2 : R -> R -> R.
Variable isAngleInRange : R -> R -> R -> bool.

(** unnamed/part_001, lines 25-69. *)
Definition checkContainerCollision (ball : Ball.t)
    (container : CircleContainer) : CollisionInfo :=
  let delta := Vector2D.sub (Ball.position ball) (getCenter container) in
  let distance := Vector2D.magnitude delta in
  let angle := atan2 (Vector2D.y delta) (Vector2D.x delta) in
  let angle := MathUtils.normalizeAngle angle in
  let gapStart := getGapStartAngle container in
  let gapEnd := getGapEndAngle container in
  let isInGap := isAngleInRange angle gapStart gapEnd in
  if isInGap then noCollision
  else
    let containerInnerRadius := getRadius container - Ball.radius ball in
    let containerOuterRadius := getRadius container + Ball.radius ball in
    if Rltb containerInnerRadius distance
       && Rleb distance (getRadius container)
    then mkInfo true (Vector2D.normalized delta)
                (distance - containerInnerRadius)
    else if Rltb (getRadius container) distance
            && Rltb distance containerOuterRadius
    then mkInfo true (Vector2D.scale (Vector2D.normalized delta) (-1))
                (containerOuterRadius - distance)
    else noCollision.

End CircularContainer.

End Rev001.

Module Rev002.

(** unnamed/part_002, lines 6-24. *)
Definition checkBallCollision (ballA ballB : Ball.t) : CollisionInfo :=
  let delta := Vector2D.sub (Ball.position ballB) (Ball.position ballA) in
  let distanceSquared := Vector2D.magnitudeSquared delta in
  let combinedRadius := Ball.radius ballA + Ball.radius ballB in
  let combinedRadiusSquared := combinedRadius * combinedRadius in
  if Rltb distanceSquared combinedRadiusSquared
     && Rltb (1 / 10000) distanceSquared
  then
    let distance := sqrt distanceSquared in
    mkInfo true (Vector2D.div delta distance) (combinedRadius - distance)
  else noCollision.

(** Lines 98-123: the contact this edge proposes, as
    [(penetration, normal)]. *)
Definition edgeContact (ball : Ball.t) (p : EdgeProbe) : option (R * Vec) :=
  if Rltb (distance p) (Ball.radius ball) then
    Some (Ball.radius ball - distance p,
          if Rltb (1 / 10000) (distance p)
          then Vector2D.scale
                 (Vector2D.div (toBallFromEdge p) (distance p)) (-1)
          else if ballIsInside p then edgePerp p
               else Vector2D.scale (edgePerp p) (-1))
  else None.

(** One turn of the loop of lines 39-147 on [bestCollision];
    [minPenetration] is declared at line 31 and never used again. *)
Definition edgeStep (ball : Ball.t) (container : Container.t)
    (gapStart gapEnd : Vec) (bestCollision : CollisionInfo) (edge : Edge)
    : CollisionInfo :=
  match probeEdge ball container gapStart gapEnd edge with
  | None => bestCollision
  | Some p =>
      match edgeContact ball p with
      | None => bestCollision
      | Some (penetration, normal) => mkInfo true normal penetration
      end
  end.

(** unnamed/part_002, lines 26-150. *)
Definition checkContainerCollision (ball : Ball.t)
    (container : Container.t) : option CollisionInfo :=
  match Container.getGapBoundaries container with
  | None => None
  | Some (gapStart, gapEnd) =>
      Some (fold_left (edgeStep ball container gapStart gapEnd)
                      (Container.getWorldEdges container)
                      noCollision)
  end.

End Rev002.

(** ** game/BallManager.cpp *)

(** A [size_t] value: 64 bits, unsigned. *)
Definition size_t_wrap (z : Z) : Z := (z mod 2 ^ 64)%Z.

Module BallManager.

Record t : Type := mk {
  spawnCenter : Vec;
  ballRadius : R;
  balls : list Ball.t;
  pendingRespawnCount : Z
}.

(** The constructor, lines 7-14 (the seeding of [rand] apart). *)
Definition make (spawnCenter : Vec) (ballRadius : R) : t :=
  mk spawnCenter ballRadius [] 0.

(** [createRandomBall], lines 50-54.  The two draws from the global
    generator, [getRandomVelocity()] and [getRandomColor()], are the
    arguments [rndVelocity] and [rndColor]. *)
Definition createRandomBall (m : t) (rndVelocity : Vec)
    (rndColor : SDL_Color) (position : Vec) : Ball.t :=
  Ball.make position rndVelocity (ballRadius m) rndColor.

(** [wouldCollideWithBalls], lines 82-96, on the vector [bs]. *)
Fixpoint wouldCollideWithBalls (bs : list Ball.t) (ballRadius : R)
    (position : Vec) : bool :=
  match bs with
  | [] => false
  | ball :: rest =>
      let distance := Vector2D.distance position (Ball.position ball) in
      let minDistance := ballRadius + Ball.radius ball in
      let safeDistance := minDistance * 2 in
      if Rltb distance safeDistance then true
      else wouldCollideWithBalls rest ballRadius position
  end.

(** [getBallCount]: the size of the ball vector. *)
Definition getBallCount (m : t) : nat := length (balls m).

(** [spawnInitialBall], lines 16-19. *)
Definition spawnInitialBall (rndVelocity : Vec) (rndColor : SDL_Color)
    (m : t) : t :=
  let ball := createRandomBall m rndVelocity rndColor (spawnCenter m) in
  mk (spawnCenter m) (ballRadius m) (balls m ++ [ball])
     (pendingRespawnCount m).

(** [spawnReplacementBalls], lines 98-103, from the turn [i] on with
    [remaining] turns to go; [rnd i] is the pair of draws of turn [i]. *)
Fixpoint spawnReplacementLoop (rnd : nat -> Vec * SDL_Color)
    (i remaining : nat) (m : t) : t :=
  match remaining with
  | O => m
  | S remaining' =>
      let ball :=
        createRandomBall m (fst (rnd i)) (snd (rnd i)) (spawnCenter m) in
      spawnReplacementLoop rnd (S i) remaining'
        (mk (spawnCenter m) (ballRadius m) (balls m ++ [ball])
            (pendingRespawnCount m))
  end.

Definition spawnReplacementBalls (rnd : nat -> Vec * SDL_Color)
    (count : nat) (m : t) : t :=
  spawnReplacementLoop rnd 0 count m.

Section Update.

(** [Ball::isOffScreen(screenWidth, screenHeight)]: Ball.h is not
    among the sources, the predicate is a parameter. *)
Variable isOffScreen : Ball.t -> R -> R -> bool.

(** The conversion of a [size_t] value to the declared type of
    [pendingRespawnCount]: BallManager.h is not among the sources, the
    conversion is a parameter. *)
Variable to_counter : Z -> Z.

(** The erase loop of lines 26-34, from the iterator's position to
    the end: the balls kept, in order, and the count.  The count is
    bounded by the vector's size, its increment does not wrap. *)
Fixpoint eraseOffScreen (screenWidth screenHeight : R)
    (bs : list Ball.t) (offScreenCount : nat) : list Ball.t * nat :=
  match bs with
  | [] => ([], offScreenCount)
  | b :: rest =>
      if isOffScreen b screenWidth screenHeight
      then eraseOffScreen screenWidth screenHeight rest
                          (S offScreenCount)
      else
        let (kept, n) :=
          eraseOffScreen screenWidth screenHeight rest offScreenCount in
        (b :: kept, n)
  end.

(** Lines 37-39: [pendingRespawnCount += offScreenCount * respawnCount]
    multiplies and adds on [size_t] and stores in the counter. *)
Definition enqueue (pending : Z) (offScreenCount : nat)
    (respawnCount : Z) : Z :=
  if (0 <? offScreenCount)%nat
  then to_counter
         (size_t_wrap
            (size_t_wrap pending
             + size_t_wrap (Z.of_nat offScreenCount
                            * size_t_wrap respawnCount)))
  else pending.

(** [BallManager::update], lines 21-48. *)
Definition update (screenWidth screenHeight : R) (respawnCount : Z)
    (rndVelocity : Vec) (rndColor : SDL_Color) (m : t) : t :=
  let (kept, offScreenCount) :=
    eraseOffScreen screenWidth screenHeight (balls m) 0 in
  let pending := enqueue (pendingRespawnCount m) offScreenCount
                         respawnCount in
  if (0 <? pending)%Z
     && negb (wouldCollideWithBalls kept (ballRadius m) (spawnCenter m))
  then
    let ball := createRandomBall m rndVelocity rndColor (spawnCenter m) in
    mk (spawnCenter m) (ballRadius m) (kept ++ [ball])
       (to_counter (pending - 1))
  else
    mk (spawnCenter m) (ballRadius m) kept pending.

End Update.

End BallManager.

(** ** core/GameState.cpp (unnamed/part_000) *)

Module GameState.

(** The calls [GameState::update] makes on its members. *)
Inductive Call : Type :=
| ContainerUpdate (deltaTime : R)
| PhysicsUpdate (deltaTime restitution : R)
| BallManagerUpdate (screenWidth screenHeight : R) (respawnCount : Z).

Section Update.

(** The physics engine: its class is not among the sources.  Its
    [update] receives the ball vector and the container by reference
    and may change both, and itself. *)
Variable Physics : Type.
Variable physics_update :
  Physics -> list Ball.t -> Container.t -> R -> R ->
  Physics * list Ball.t * Container.t.

(** [Config::WINDOW_WIDTH] and [Config::WINDOW_HEIGHT], cast to
    [float]: core/Config.h is not among the sources. *)
Variables WINDOW_WIDTH WINDOW_HEIGHT : R.

Variable isOffScreen : Ball.t -> R -> R -> bool.
Variable to_counter : Z -> Z.

Record t : Type := mk {
  ballManager : BallManager.t;
  container : Container.t;
  physics : Physics
}.

(** A member call: it changes the game state and is recorded in the
    log of calls made so far. *)
Definition M (A : Type) : Type := t * list Call -> A * (t * list Call).

Definition ret {A : Type} (a : A) : M A := fun s => (a, s).
Definition bind {A B : Type} (m : M A) (k : A -> M B) : M B :=
  fun s => let (a, s') := m s in k a s'.

Definition call (c : Call) (f : t -> t) : M unit :=
  fun s => (tt, (f (fst s), snd s ++ [c])).

Definition container_update (deltaTime : R) : M unit :=
  call (ContainerUpdate deltaTime)
    (fun g => mk (ballManager g)
                 (Container.update deltaTime (container g))
                 (physics g)).

Definition physics_step (deltaTime restitution : R) : M unit :=
  call (PhysicsUpdate deltaTime restitution)
    (fun g =>
       let bm := ballManager g in
       match physics_update (physics g) (BallManager.balls bm)
                            (container g) deltaTime restitution with
       | (ph, bs, c) =>
           mk (BallManager.mk (BallManager.spawnCenter bm)
                              (BallManager.ballRadius bm) bs
                              (BallManager.pendingRespawnCount bm))
              c ph
       end).

Definition ballManager_update (screenWidth screenHeight : R)
    (respawnCount : Z) (rndVelocity : Vec) (rndColor : SDL_Color)
    : M unit :=
  call (BallManagerUpdate screenWidth screenHeight respawnCount)
    (fun g =>
       mk (BallManager.update isOffScreen to_counter screenWidth
             screenHeight respawnCount rndVelocity rndColor
             (ballManager g))
          (container g) (physics g)).

(** [GameState::update], part_000 lines 24-37. *)
Definition update (deltaTime restitution : R) (respawnCount : Z)
    (rndVelocity : Vec) (rndColor : SDL_Color) : M unit :=
  bind (container_update deltaTime) (fun _ =>
  bind (physics_step deltaTime restitution) (fun _ =>
  ballManager_update WINDOW_WIDTH WINDOW_HEIGHT respawnCount
                     rndVelocity rndColor)).

End Update.

End GameState.

(** ** rendering/ShapeRenderer.cpp *)

Module ShapeRenderer.

(** The calls made on the SDL renderer. *)
Inductive SDL_Call : Type :=
| SDL_SetRenderDrawColor (r g b a : Z)
| SDL_RenderDrawLine (x1 y1 x2 y2 : Z).

(** [static_cast<int>] of a [float]: truncation toward zero (a value
    outside the range of [int] is undefined behaviour and not modelled). *)
Definition float_to_int (r : R) : Z :=
  if Rleb 0 r then Int_part r else (- Int_part (- r))%Z.

(** The loop of lines 19-28 from [t] on, with [turns] turns to go. *)
Fixpoint drawLines (start end_ perp : Vec) (t : Z) (turns : nat)
    : list SDL_Call :=
  match turns with
  | O => []
  | S turns' =>
      let offset := Vector2D.scale perp (IZR t) in
      SDL_RenderDrawLine
        (float_to_int (Vector2D.x start + Vector2D.x offset))
        (float_to_int (Vector2D.y start + Vector2D.y offset))
        (float_to_int (Vector2D.x end_ + Vector2D.x offset))
        (float_to_int (Vector2D.y end_ + Vector2D.y offset))
      :: drawLines start end_ perp (t + 1) turns'
  end.

(** [ShapeRenderer::drawThickLine], lines 4-29: the calls made, in
    order.  [thickness / 2] is the division of [int], which truncates
    toward zero; the loop runs for [t] from [-halfThickness] to
    [halfThickness], that is [2 * halfThickness + 1] times when this is
    positive and not at all otherwise. *)
Definition drawThickLine (start end_ : Vec) (color : SDL_Color)
    (thickness : Z) : list SDL_Call :=
  let dir := Vector2D.normalized (Vector2D.sub end_ start) in
  let perp := Vector2D.mk (- Vector2D.y dir) (Vector2D.x dir) in
  let halfThickness := Z.quot thickness 2 in
  SDL_SetRenderDrawColor (cr color) (cg color) (cb color) (ca color)
  :: drawLines start end_ perp (- halfThickness)
               (Z.to_nat (2 * halfThickness + 1)).

End ShapeRenderer.

(** * Vocabulary of the properties *)

(** The five values the spec lists as the inputs of the geometry. *)
Definition geometryInputs (c : Container.t) : Vec * R * R * R * Z :=
  (Container.center c, Container.sideLength c, Container.currentAngleRad c,
   Container.gapSizeFraction c, Container.gapSide c).

(** The world position of the local corner [(lx, ly)]: the body of the
    loop of part_003 lines 125-129. *)
Definition worldCorner (c : Container.t) (lx ly : R) : Vec :=
  Vector2D.mk
    (Vector2D.x (Container.center c)
     + (lx * cos (Container.currentAngleRad c)
        - ly * sin (Container.currentAngleRad c)))
    (Vector2D.y (Container.center c)
     + (lx * sin (Container.currentAngleRad c)
        + ly * cos (Container.currentAngleRad c))).

(** The conversion of a [size_t] value to a 32-bit [int]. *)
Definition int_of_size_t (z : Z) : Z :=
  ((z + 2 ^ 31) mod 2 ^ 32 - 2 ^ 31)%Z.

(** Modelled from the spec: [Ball::isOffScreen] is not among the sources.
    The spec removes a body whose position lies outside
    [[-k W, k W] x [-k H, k H]] for a configured multiplier [k]. *)
Definition isOffScreenBy (k : R) (b : Ball.t) (W H : R) : bool :=
  Rltb (Vector2D.x (Ball.position b)) (- (k * W))
  || Rltb (k * W) (Vector2D.x (Ball.position b))
  || Rltb (Vector2D.y (Ball.position b)) (- (k * H))
  || Rltb (k * H) (Vector2D.y (Ball.position b)).

(** The scene of the worked inputs: a square of side 8 about the origin,
    not rotated, with a gap of a quarter of side 0; its four edges and
    its gap endpoints; three balls. *)
Definition box : Container.t := Container.make (Vector2D.mk 0 0) 8 (1 / 4) 0.
Definition white : SDL_Color := mkColor 255 255 255 255.
Definition cornerBall : Ball.t :=
  Ball.make (Vector2D.mk (-2) 3) (Vector2D.mk 0 0) 3 white.
Definition escapedBall : Ball.t :=
  Ball.make (Vector2D.mk 0 7) (Vector2D.mk 0 0) 1 white.
Definition gapBall : Ball.t :=
  Ball.make (Vector2D.mk 4 0) (Vector2D.mk 0 0) 1 white.
Definition boxEdge0 : Edge :=
  mkEdge (Vector2D.mk 4 (-4)) (Vector2D.mk 4 4) 0 true.
Definition boxEdge1 : Edge :=
  mkEdge (Vector2D.mk 4 4) (Vector2D.mk (-4) 4) 1 false.
Definition boxEdge2 : Edge :=
  mkEdge (Vector2D.mk (-4) 4) (Vector2D.mk (-4) (-4)) 2 false.
Definition boxEdge3 : Edge :=
  mkEdge (Vector2D.mk (-4) (-4)) (Vector2D.mk 4 (-4)) 3 false.
Definition boxGapStart : Vec := Vector2D.mk 4 (-1).
Definition boxGapEnd : Vec := Vector2D.mk 4 1.

(** What an edge proposes in one turn of the loop of
    [checkContainerCollision], as [(penetration, normal)]: the probe of
    lines 41-91 followed by the file's own test of the overlap. *)
Definition edgeProposal
    (edgeContact : Ball.t -> EdgeProbe -> option (R * Vec))
    (ball : Ball.t) (container : Container.t) (gapStart gapEnd : Vec)
    (edge : Edge) : option (R * Vec) :=
  match probeEdge ball container gapStart gapEnd edge with
  | None => None
  | Some p => edgeContact ball p
  end.

(** The record a turn of the loop stores for a proposal. *)
Definition proposalInfo (proposal : option (R * Vec)) : list CollisionInfo :=
  match proposal with
  | Some (penetration, normal) => [mkInfo true normal penetration]
  | None => []
  end.

(** The container [c] at the rotation angle [angle]. *)
Definition atAngle (c : Container.t) (angle : R) : Container.t :=
  Container.mk (Container.center c) (Container.sideLength c)
    (Container.gapSizeFraction c) (Container.gapSide c)
    (Container.rotationSpeed c) angle.

(** The line [drawThickLine] draws at the offset [t]: the call of lines
    20-27 of ShapeRenderer.cpp. *)
Definition lineAt (start end_ perp : Vec) (t : Z) : ShapeRenderer.SDL_Call :=
  let offset := Vector2D.scale perp (IZR t) in
  ShapeRenderer.SDL_RenderDrawLine
    (ShapeRenderer.float_to_int (Vector2D.x start + Vector2D.x offset))
    (ShapeRenderer.float_to_int (Vector2D.y start + Vector2D.y offset))
    (ShapeRenderer.float_to_int (Vector2D.x end_ + Vector2D.x offset))
    (ShapeRenderer.float_to_int (Vector2D.y end_ + Vector2D.y offset)).

(** * Properties *)

(** ** Reals: comparisons, square roots *)

Lemma Rltb_true_iff (a b : R) : Rltb a b = true <-> a < b.
Proof. unfold Rltb. destruct (Rlt_dec a b); split; intros; try easy. Qed.

Lemma Rltb_false_iff (a b : R) : Rltb a b = false <-> b <= a.
Proof.
  unfold Rltb. destruct (Rlt_dec a b); split; intros; try easy; lra.
Qed.

Lemma Rleb_true_iff (a b : R) : Rleb a b = true <-> a <= b.
Proof. unfold Rleb. destruct (Rle_dec a b); split; intros; try easy. Qed.

Lemma Rleb_false_iff (a b : R) : Rleb a b = false <-> b < a.
Proof.
  unfold Rleb. destruct (Rle_dec a b); split; intros; try easy; lra.
Qed.

Lemma Rltb_true (a b : R) : a < b -> Rltb a b = true.
Proof. apply Rltb_true_iff. Qed.

Lemma Rltb_false (a b : R) : b <= a -> Rltb a b = false.
Proof. apply Rltb_false_iff. Qed.

Lemma Rleb_true (a b : R) : a <= b -> Rleb a b = true.
Proof. apply Rleb_true_iff. Qed.

Lemma Rleb_false (a b : R) : b < a -> Rleb a b = false.
Proof. apply Rleb_false_iff. Qed.

Lemma vec_eq (a b : Vec) :
  Vector2D.x a = Vector2D.x b -> Vector2D.y a = Vector2D.y b -> a = b.
Proof. destruct a, b; simpl; intros -> ->; reflexivity. Qed.

Lemma magnitudeSquared_nonneg (v : Vec) : 0 <= Vector2D.magnitudeSquared v.
Proof. unfold Vector2D.magnitudeSquared. nra. Qed.

Lemma magnitude_nonneg (v : Vec) : 0 <= Vector2D.magnitude v.
Proof. apply sqrt_pos. Qed.

(** A magnitude is read off a square. *)
Lemma magnitude_eq (v : Vec) (m : R) :
  0 <= m -> Vector2D.magnitudeSquared v = m * m -> Vector2D.magnitude v = m.
Proof.
  intros Hm Hsq. unfold Vector2D.magnitude. rewrite Hsq.
  now apply sqrt_square.
Qed.

Lemma magnitude_square (v : Vec) :
  Vector2D.magnitude v * Vector2D.magnitude v = Vector2D.magnitudeSquared v.
Proof. apply sqrt_sqrt, magnitudeSquared_nonneg. Qed.

Lemma magnitude_div_self (v : Vec) :
  0 < Vector2D.magnitude v ->
  Vector2D.magnitude (Vector2D.div v (Vector2D.magnitude v)) = 1.
Proof.
  intros Hpos. apply magnitude_eq; [lra|].
  pose proof (magnitude_square v) as Hsq.
  unfold Vector2D.magnitudeSquared in *. simpl.
  set (m := Vector2D.magnitude v) in *.
  transitivity ((Vector2D.x v * Vector2D.x v + Vector2D.y v * Vector2D.y v)
                / (m * m)).
  - field. lra.
  - rewrite <- Hsq. field. lra.
Qed.

(** ** Ball against ball *)

(** C4.  [checkBallCollision] reports a collision exactly when the squared
    distance of the centres is below the square of the summed radii and
    above the coincidence threshold [0.0001]; the penetration is then the
    summed radii minus the distance of the centres, and the normal has
    length one and points from [ballA]'s centre to [ballB]'s: the
    difference of the centres is the normal scaled by the (positive)
    distance. *)
Theorem checkBallCollision_contact (ballA ballB : Ball.t) :
  let delta := Vector2D.sub (Ball.position ballB) (Ball.position ballA) in
  let centerDistance :=
    Vector2D.distance (Ball.position ballB) (Ball.position ballA) in
  let combinedRadius := Ball.radius ballA + Ball.radius ballB in
  let info := Baseline.checkBallCollision ballA ballB in
  (hasCollision info = true <->
     Vector2D.magnitudeSquared delta < combinedRadius * combinedRadius
     /\ 1 / 10000 < Vector2D.magnitudeSquared delta)
  /\ (hasCollision info = true ->
        penetration info = combinedRadius - centerDistance
        /\ Vector2D.magnitude (normal info) = 1
        /\ 0 < centerDistance
        /\ delta = Vector2D.scale (normal info) centerDistance).
Proof.
  intros delta centerDistance combinedRadius info.
  subst info. unfold Baseline.checkBallCollision.
  fold delta. fold combinedRadius.
  assert (Hdist : centerDistance = sqrt (Vector2D.magnitudeSquared delta))
    by reflexivity.
  destruct (Rltb (Vector2D.magnitudeSquared delta)
                 (combinedRadius * combinedRadius)) eqn:Hlt;
    destruct (Rltb (1 / 10000) (Vector2D.magnitudeSquared delta)) eqn:Hgt;
    simpl.
  - apply Rltb_true_iff in Hlt, Hgt. split; [tauto|]. intros _.
    assert (Hpos : 0 < centerDistance).
    { rewrite Hdist. apply sqrt_lt_R0. lra. }
    rewrite <- Hdist. repeat split; try assumption.
    + apply magnitude_div_self. exact Hpos.
    + apply vec_eq; simpl; field; lra.
  - apply Rltb_false_iff in Hgt. split; [|discriminate].
    split; [discriminate|]. intros [_ H]. lra.
  - apply Rltb_false_iff in Hlt. split; [|discriminate].
    split; [discriminate|]. intros [H _]. lra.
  - apply Rltb_false_iff in Hlt. split; [|discriminate].
    split; [discriminate|]. intros [H _]. lra.
Qed.

(** C10.  The ball-ball detector of src/physics/CollisionDetector.cpp, of
    part_001 and of part_002 return the same contact on every pair of
    balls: the same flag, normal and penetration. *)
Theorem checkBallCollision_revisions_agree (ballA ballB : Ball.t) :
  Baseline.checkBallCollision ballA ballB
    = Rev001.checkBallCollision ballA ballB
  /\ Rev001.checkBallCollision ballA ballB
    = Rev002.checkBallCollision ballA ballB.
Proof. split; reflexivity. Qed.

(** ** The container: rotation *)

Lemma TWO_PI_pos : 0 < MathUtils.TWO_PI.
Proof. unfold MathUtils.TWO_PI. pose proof PI_RGT_0. lra. Qed.

Lemma normalizeAngle_range (angle : R) :
  0 <= MathUtils.normalizeAngle angle < MathUtils.TWO_PI.
Proof.
  unfold MathUtils.normalizeAngle.
  pose proof TWO_PI_pos as Hpos.
  destruct (base_Int_part (angle / MathUtils.TWO_PI)) as [Hle Hgt].
  set (k := IZR (Int_part (angle / MathUtils.TWO_PI))) in *.
  assert (Hangle : angle = angle / MathUtils.TWO_PI * MathUtils.TWO_PI)
    by (field; lra).
  split.
  - assert (k * MathUtils.TWO_PI
            <= angle / MathUtils.TWO_PI * MathUtils.TWO_PI)
      by (apply Rmult_le_compat_r; lra).
    lra.
  - assert (angle / MathUtils.TWO_PI * MathUtils.TWO_PI
            < (k + 1) * MathUtils.TWO_PI)
      by (apply Rmult_lt_compat_r; lra).
    lra.
Qed.

(** C6.  After [Container::update] the stored angle is the previous angle
    plus the angular speed (the rotation speed in radians) times
    [deltaTime], less a whole number of turns, and lies in [0, 2 pi); the
    other fields are the previous ones.  This holds for every
    [deltaTime], the non-negative ones included. *)
Theorem Container_update_wraps (deltaTime : R) (c : Container.t) :
  let angularSpeed := MathUtils.degToRad (Container.rotationSpeed c) in
  let c' := Container.update deltaTime c in
  (exists turns : Z,
     Container.currentAngleRad c'
     = Container.currentAngleRad c + angularSpeed * deltaTime
       - IZR turns * (2 * PI))
  /\ 0 <= Container.currentAngleRad c' < 2 * PI
  /\ Container.center c' = Container.center c
  /\ Container.sideLength c' = Container.sideLength c
  /\ Container.gapSizeFraction c' = Container.gapSizeFraction c
  /\ Container.gapSide c' = Container.gapSide c
  /\ Container.rotationSpeed c' = Container.rotationSpeed c.
Proof.
  intros angularSpeed c'. subst c' angularSpeed.
  unfold Container.update. simpl.
  split; [|split; [apply normalizeAngle_range | repeat split]].
  exists (Int_part
            ((Container.currentAngleRad c
              + MathUtils.degToRad (Container.rotationSpeed c * deltaTime))
             / MathUtils.TWO_PI)).
  unfold MathUtils.normalizeAngle, MathUtils.TWO_PI, MathUtils.degToRad.
  field.
Qed.

(** ** The container: geometry queries *)

(** C8.  [getWorldCorners], [getWorldEdges] and [getGapBoundaries] are
    [const] member functions: each is a function of the container alone
    and returns no new container.  Their results depend on
    [(center, sideLength, rotationAngle, gapFraction, gapEdgeIndex)] only:
    two containers that agree on these five return the same corners,
    edges and gap endpoints, whatever else they hold. *)
Theorem geometry_queries_pure (c1 c2 : Container.t) :
  geometryInputs c1 = geometryInputs c2 ->
  Container.getWorldCorners c1 = Container.getWorldCorners c2
  /\ Container.getWorldEdges c1 = Container.getWorldEdges c2
  /\ Container.getGapBoundaries c1 = Container.getGapBoundaries c2.
Proof.
  unfold geometryInputs. intros Heq.
  injection Heq as Hcenter Hside Hangle Hfrac Hgap.
  assert (Hcorners :
            Container.getWorldCorners c1 = Container.getWorldCorners c2).
  { unfold Container.getWorldCorners.
    rewrite Hcenter, Hside, Hangle. reflexivity. }
  assert (Hedges : Container.getWorldEdges c1 = Container.getWorldEdges c2).
  { unfold Container.getWorldEdges. rewrite Hcorners, Hgap. reflexivity. }
  repeat split; try assumption.
  unfold Container.getGapBoundaries. rewrite Hedges, Hgap, Hfrac.
  reflexivity.
Qed.

(** Two containers that differ in their rotation speed only. *)
Lemma geometry_queries_pure_witness :
  let c1 := Container.mk (Vector2D.mk 0 0) 8 (1 / 4) 0 36 0 in
  let c2 := Container.mk (Vector2D.mk 0 0) 8 (1 / 4) 0 0 0 in
  geometryInputs c1 = geometryInputs c2
  /\ Container.getWorldCorners c1 = Container.getWorldCorners c2
  /\ Container.getWorldEdges c1 = Container.getWorldEdges c2
  /\ Container.getGapBoundaries c1 = Container.getGapBoundaries c2.
Proof.
  intros c1 c2. split; [reflexivity|].
  apply (geometry_queries_pure c1 c2). reflexivity.
Defined.

(** ** The per-tick update *)

Section GameStateUpdate.

Variable Physics : Type.
Variable physics_update :
  Physics -> list Ball.t -> Container.t -> R -> R ->
  Physics * list Ball.t * Container.t.
Variables WINDOW_WIDTH WINDOW_HEIGHT : R.
Variable isOffScreen : Ball.t -> R -> R -> bool.
Variable to_counter : Z -> Z.

(** C9.  One call of [GameState::update] makes three member calls, in
    this order and each once: [container.update(deltaTime)], then
    [physics.update] on the ball vector and the rotated container, then
    [ballManager.update] on the balls the physics step left.  The log
    grows by exactly these three calls and the state is the one the
    three calls produce in this order. *)
Theorem GameState_update_order (deltaTime restitution : R)
    (respawnCount : Z) (rndVelocity : Vec) (rndColor : SDL_Color)
    (g : GameState.t Physics) (log : list GameState.Call) :
  let bm := GameState.ballManager _ g in
  let rotated := Container.update deltaTime (GameState.container _ g) in
  let stepped :=
    physics_update (GameState.physics _ g) (BallManager.balls bm)
                   rotated deltaTime restitution in
  let bm' :=
    BallManager.update isOffScreen to_counter WINDOW_WIDTH WINDOW_HEIGHT
      respawnCount rndVelocity rndColor
      (BallManager.mk (BallManager.spawnCenter bm)
                      (BallManager.ballRadius bm)
                      (snd (fst stepped))
                      (BallManager.pendingRespawnCount bm)) in
  GameState.update Physics physics_update WINDOW_WIDTH WINDOW_HEIGHT
    isOffScreen to_counter deltaTime restitution respawnCount
    rndVelocity rndColor (g, log)
  = (tt,
     (GameState.mk _ bm' (snd stepped) (fst (fst stepped)),
      log ++ [GameState.ContainerUpdate deltaTime;
              GameState.PhysicsUpdate deltaTime restitution;
              GameState.BallManagerUpdate WINDOW_WIDTH WINDOW_HEIGHT
                                          respawnCount])).
Proof.
  intros bm rotated stepped bm'.
  unfold GameState.update, GameState.bind, GameState.container_update,
    GameState.physics_step, GameState.ballManager_update, GameState.call.
  cbn [fst snd GameState.ballManager GameState.container
       GameState.physics].
  fold bm. fold rotated. fold stepped.
  destruct stepped as [[ph bs] c] eqn:Hstep.
  subst bm'. cbn [fst snd].
  rewrite <- !app_assoc. reflexivity.
Qed.

End GameStateUpdate.

(** ** The container: edges and gap *)

Lemma getWorldEdges_unfold (c : Container.t) :
  let h := Container.sideLength c / 2 in
  let c0 := worldCorner c h (- h) in
  let c1 := worldCorner c h h in
  let c2 := worldCorner c (- h) h in
  let c3 := worldCorner c (- h) (- h) in
  Container.getWorldEdges c
  = [ mkEdge c0 c1 0 (0 =? Container.gapSide c)%Z;
      mkEdge c1 c2 1 (1 =? Container.gapSide c)%Z;
      mkEdge c2 c3 2 (2 =? Container.gapSide c)%Z;
      mkEdge c3 c0 3 (3 =? Container.gapSide c)%Z ].
Proof. reflexivity. Qed.

(** Every edge of the square has the side length as its length. *)
Lemma edge_magnitudeSquared (c : Container.t) (e : Edge) :
  In e (Container.getWorldEdges c) ->
  Vector2D.magnitudeSquared (Vector2D.sub (end_ e) (start e))
  = Container.sideLength c * Container.sideLength c.
Proof.
  rewrite getWorldEdges_unfold. cbv zeta.
  pose proof (sin2_cos2 (Container.currentAngleRad c)) as Hsc.
  unfold Rsqr in Hsc.
  set (S := sin (Container.currentAngleRad c)) in *.
  set (C := cos (Container.currentAngleRad c)) in *.
  set (s := Container.sideLength c).
  intros [<- | [<- | [<- | [<- | []]]]];
    unfold Vector2D.magnitudeSquared, worldCorner; cbn;
    fold S; fold C;
    (transitivity (s * s * (S * S + C * C)); [field | rewrite Hsc; ring]).
Qed.

Lemma edge_magnitude (c : Container.t) (e : Edge) :
  0 <= Container.sideLength c ->
  In e (Container.getWorldEdges c) ->
  Vector2D.magnitude (Vector2D.sub (end_ e) (start e))
  = Container.sideLength c.
Proof.
  intros Hs Hin. apply magnitude_eq; [exact Hs|].
  now apply edge_magnitudeSquared.
Qed.

(** A gap laid out on a segment of length [L] as in lines 158-168 of
    part_003 is centred on the segment and has length [f * L]. *)
Lemma gap_layout_centered (s e : Vec) (L f : R) :
  Vector2D.magnitude (Vector2D.sub e s) = L ->
  1 / 10000 < L ->
  0 <= f ->
  let edgeDir := Vector2D.normalized (Vector2D.sub e s) in
  let gapLength := L * f in
  let gapStartDist := (L - gapLength) / 2 in
  let gapEndDist := gapStartDist + gapLength in
  let gapStart := Vector2D.add s (Vector2D.scale edgeDir gapStartDist) in
  let gapEnd := Vector2D.add s (Vector2D.scale edgeDir gapEndDist) in
  let mid := Vector2D.scale (Vector2D.add s e) (1 / 2) in
  Vector2D.sub gapStart mid
  = Vector2D.scale (Vector2D.sub gapEnd mid) (-1)
  /\ Vector2D.distance gapStart gapEnd = f * L.
Proof.
  intros HL Hpos Hf edgeDir gapLength gapStartDist gapEndDist
         gapStart gapEnd mid.
  assert (Hdir : edgeDir = Vector2D.div (Vector2D.sub e s) L).
  { subst edgeDir. unfold Vector2D.normalized.
    rewrite HL, Rltb_true by lra. reflexivity. }
  subst gapStart gapEnd mid gapStartDist gapEndDist gapLength.
  rewrite Hdir. split.
  - apply vec_eq; cbn; field; lra.
  - unfold Vector2D.distance. apply magnitude_eq; [nra|].
    pose proof (magnitude_square (Vector2D.sub e s)) as Hsq.
    rewrite HL in Hsq.
    unfold Vector2D.magnitudeSquared in *. cbn in *.
    transitivity
      (f * f * ((Vector2D.x e - Vector2D.x s) * (Vector2D.x e - Vector2D.x s)
                + (Vector2D.y e - Vector2D.y s)
                  * (Vector2D.y e - Vector2D.y s))).
    + field. lra.
    + rewrite <- Hsq. ring.
Qed.

(** C7.  In a container whose gap side is one of the four sides, whose
    side is not degenerate and whose gap fraction is not negative (the
    ranges Container.h documents), exactly one of the four edges of
    [getWorldEdges] carries the gap, it is the edge [getGapBoundaries]
    reads, and the two gap endpoints are centred on it: they are
    symmetric about the midpoint of the edge and their distance is
    [gapSizeFraction] times the length of the edge. *)
Theorem gap_on_one_edge_centered (c : Container.t) :
  (0 <= Container.gapSide c < 4)%Z ->
  1 / 10000 < Container.sideLength c ->
  0 <= Container.gapSizeFraction c ->
  exists (gapEdge : Edge) (gapStart gapEnd : Vec),
    length (Container.getWorldEdges c) = 4%nat
    /\ filter hasGap (Container.getWorldEdges c) = [gapEdge]
    /\ array_at (Container.getWorldEdges c) (Container.gapSide c)
       = Some gapEdge
    /\ Container.getGapBoundaries c = Some (gapStart, gapEnd)
    /\ (let mid :=
          Vector2D.scale (Vector2D.add (start gapEdge) (end_ gapEdge))
                         (1 / 2) in
        Vector2D.sub gapStart mid
        = Vector2D.scale (Vector2D.sub gapEnd mid) (-1))
    /\ Vector2D.distance gapStart gapEnd
       = Container.gapSizeFraction c
         * Vector2D.magnitude
             (Vector2D.sub (end_ gapEdge) (start gapEdge)).
Proof.
  intros Hside Hlen Hfrac.
  assert (Hcases : Container.gapSide c = 0%Z \/ Container.gapSide c = 1%Z
                   \/ Container.gapSide c = 2%Z
                   \/ Container.gapSide c = 3%Z) by lia.
  assert (Hgap : exists gapEdge,
             filter hasGap (Container.getWorldEdges c) = [gapEdge]
             /\ array_at (Container.getWorldEdges c) (Container.gapSide c)
                = Some gapEdge).
  { rewrite getWorldEdges_unfold. cbv zeta.
    destruct Hcases as [H | [H | [H | H]]]; rewrite H; cbn;
      eexists; split; reflexivity. }
  destruct Hgap as (gapEdge & Hfilter & Hat).
  assert (Hin : In gapEdge (Container.getWorldEdges c)).
  { assert (Hin' : In gapEdge (filter hasGap (Container.getWorldEdges c)))
      by (rewrite Hfilter; now left).
    apply filter_In in Hin'. tauto. }
  pose proof (edge_magnitude c gapEdge ltac:(lra) Hin) as Hmag.
  destruct (gap_layout_centered (start gapEdge) (end_ gapEdge)
              (Container.sideLength c) (Container.gapSizeFraction c)
              Hmag Hlen Hfrac) as [Hsym Hdist].
  eexists gapEdge, _, _.
  split; [reflexivity|].
  split; [exact Hfilter|].
  split; [exact Hat|].
  split.
  - unfold Container.getGapBoundaries. rewrite Hat, Hmag. reflexivity.
  - split; [exact Hsym|]. rewrite Hmag. exact Hdist.
Qed.

(** A square of side 8 about the origin, gap of a quarter on side 0. *)
Lemma gap_on_one_edge_centered_witness :
  let c := Container.make (Vector2D.mk 0 0) 8 (1 / 4) 0 in
  ((0 <= Container.gapSide c < 4)%Z
   /\ 1 / 10000 < Container.sideLength c
   /\ 0 <= Container.gapSizeFraction c)
  /\ exists (gapEdge : Edge) (gapStart gapEnd : Vec),
       length (Container.getWorldEdges c) = 4%nat
       /\ filter hasGap (Container.getWorldEdges c) = [gapEdge]
       /\ array_at (Container.getWorldEdges c) (Container.gapSide c)
          = Some gapEdge
       /\ Container.getGapBoundaries c = Some (gapStart, gapEnd)
       /\ (let mid :=
             Vector2D.scale (Vector2D.add (start gapEdge) (end_ gapEdge))
                            (1 / 2) in
           Vector2D.sub gapStart mid
           = Vector2D.scale (Vector2D.sub gapEnd mid) (-1))
       /\ Vector2D.distance gapStart gapEnd
          = Container.gapSizeFraction c
            * Vector2D.magnitude
                (Vector2D.sub (end_ gapEdge) (start gapEdge)).
Proof.
  intros c.
  assert (H1 : (0 <= Container.gapSide c < 4)%Z) by (cbn; lia).
  assert (H2 : 1 / 10000 < Container.sideLength c) by (cbn; lra).
  assert (H3 : 0 <= Container.gapSizeFraction c) by (cbn; lra).
  split; [exact (conj H1 (conj H2 H3))|].
  exact (gap_on_one_edge_centered c H1 H2 H3).
Defined.

(** ** The ball manager *)

Section BallManagerUpdate.

Variable isOffScreen : Ball.t -> R -> R -> bool.
Variable to_counter : Z -> Z.

(** The declared type of the counter holds at least the non-negative
    values of an [int], and a value it holds is stored unchanged. *)
Hypothesis to_counter_small :
  forall z : Z, (0 <= z < 2 ^ 31)%Z -> to_counter z = z.

Lemma eraseOffScreen_filter (screenWidth screenHeight : R)
    (bs : list Ball.t) (n : nat) :
  BallManager.eraseOffScreen isOffScreen screenWidth screenHeight bs n
  = (filter (fun b => negb (isOffScreen b screenWidth screenHeight)) bs,
     (n + length
            (filter (fun b => isOffScreen b screenWidth screenHeight) bs))
     %nat).
Proof.
  revert n. induction bs as [|b rest IH]; intros n; simpl.
  - f_equal. lia.
  - destruct (isOffScreen b screenWidth screenHeight); simpl.
    + rewrite IH. f_equal. lia.
    + rewrite IH. reflexivity.
Qed.

Lemma enqueue_exact (pending : Z) (removed : nat) (respawnCount : Z) :
  (0 <= pending)%Z -> (0 <= respawnCount)%Z ->
  (pending + Z.of_nat removed * respawnCount < 2 ^ 31)%Z ->
  BallManager.enqueue to_counter pending removed respawnCount
  = (pending + Z.of_nat removed * respawnCount)%Z.
Proof.
  intros Hp Hr Hbound. unfold BallManager.enqueue.
  destruct (0 <? removed)%nat eqn:Hpos.
  - apply Nat.ltb_lt in Hpos.
    assert (Hr' : (respawnCount <= Z.of_nat removed * respawnCount)%Z)
      by nia.
    assert (H31 : (2 ^ 31 < 2 ^ 64)%Z) by reflexivity.
    unfold size_t_wrap.
    rewrite (Z.mod_small respawnCount) by lia.
    rewrite (Z.mod_small pending) by lia.
    rewrite (Z.mod_small (Z.of_nat removed * respawnCount)) by nia.
    rewrite Z.mod_small by nia.
    apply to_counter_small. nia.
  - apply Nat.ltb_ge in Hpos.
    assert (removed = 0%nat) as -> by lia. simpl. lia.
Qed.

(** C5.  One call of [BallManager::update], for a counter and a respawn
    count that are not negative and an enqueued total within the
    counter's range: the balls kept are exactly the on-screen ones, in
    their order (every off-screen ball is removed, no on-screen ball
    is); the counter first grows by the number removed times
    [respawnCount]; at most one ball is appended, and one is, at the
    spawn centre, exactly when the grown counter is positive and the
    spawn point is clear of the balls kept; the counter then drops by
    the number of balls appended and is not negative. *)
Theorem BallManager_update_lifecycle (screenWidth screenHeight : R)
    (respawnCount : Z) (rndVelocity : Vec) (rndColor : SDL_Color)
    (m : BallManager.t) :
  let offScreen := fun b => isOffScreen b screenWidth screenHeight in
  let kept := filter (fun b => negb (offScreen b)) (BallManager.balls m) in
  let removed := length (filter offScreen (BallManager.balls m)) in
  let enqueued :=
    (BallManager.pendingRespawnCount m
     + Z.of_nat removed * respawnCount)%Z in
  let m' :=
    BallManager.update isOffScreen to_counter screenWidth screenHeight
                       respawnCount rndVelocity rndColor m in
  (0 <= BallManager.pendingRespawnCount m)%Z ->
  (0 <= respawnCount)%Z ->
  (enqueued < 2 ^ 31)%Z ->
  exists spawned : list Ball.t,
    BallManager.balls m' = kept ++ spawned
    /\ (length spawned <= 1)%nat
    /\ (spawned
        = [BallManager.createRandomBall m rndVelocity rndColor
             (BallManager.spawnCenter m)]
        <-> (0 < enqueued)%Z
            /\ BallManager.wouldCollideWithBalls
                 kept (BallManager.ballRadius m)
                 (BallManager.spawnCenter m) = false)
    /\ BallManager.pendingRespawnCount m'
       = (enqueued - Z.of_nat (length spawned))%Z
    /\ (0 <= BallManager.pendingRespawnCount m')%Z
    /\ BallManager.spawnCenter m' = BallManager.spawnCenter m
    /\ BallManager.ballRadius m' = BallManager.ballRadius m.
Proof.
  intros offScreen kept removed enqueued m' Hp Hr Hbound.
  subst m'. unfold BallManager.update.
  rewrite eraseOffScreen_filter.
  change (filter (fun b => negb (isOffScreen b screenWidth screenHeight))
                 (BallManager.balls m)) with kept.
  change (0 + length (filter (fun b => isOffScreen b screenWidth
                                         screenHeight)
                             (BallManager.balls m)))%nat with removed.
  rewrite (enqueue_exact _ _ _ Hp Hr Hbound). fold enqueued.
  assert (Hnonneg : (0 <= enqueued)%Z) by (subst enqueued; nia).
  destruct (0 <? enqueued)%Z eqn:Hpos;
    destruct (BallManager.wouldCollideWithBalls kept
                (BallManager.ballRadius m) (BallManager.spawnCenter m))
      eqn:Hclear; cbn [andb negb BallManager.balls
                       BallManager.pendingRespawnCount
                       BallManager.spawnCenter BallManager.ballRadius].
  - apply Z.ltb_lt in Hpos. exists []. rewrite app_nil_r.
    repeat split; simpl; try lia; try discriminate.
  - apply Z.ltb_lt in Hpos. eexists [_].
    rewrite to_counter_small by lia.
    repeat split; simpl; try lia.
  - apply Z.ltb_ge in Hpos. exists []. rewrite app_nil_r.
    repeat split; simpl; try lia; try discriminate.
  - apply Z.ltb_ge in Hpos. exists []. rewrite app_nil_r.
    repeat split; simpl; try lia; try discriminate.
Qed.

End BallManagerUpdate.

Lemma int_of_size_t_small (z : Z) :
  (0 <= z < 2 ^ 31)%Z -> int_of_size_t z = z.
Proof.
  intros Hz. unfold int_of_size_t.
  rewrite Z.mod_small; lia.
Qed.

(** A manager holding a ball far to the right of an 800 x 600 screen and
    a ball on it, an empty queue, two respawns per escape. *)
Lemma BallManager_update_lifecycle_witness :
  let white := mkColor 255 255 255 255 in
  let far := Ball.make (Vector2D.mk 5000 0) (Vector2D.mk 1 0) 10 white in
  let near := Ball.make (Vector2D.mk 100 0) (Vector2D.mk 0 1) 10 white in
  let m := BallManager.mk (Vector2D.mk 400 300) 10 [far; near] 0 in
  let offScreen := fun b => isOffScreenBy 2 b 800 600 in
  let kept := filter (fun b => negb (offScreen b)) (BallManager.balls m) in
  let removed := length (filter offScreen (BallManager.balls m)) in
  let enqueued :=
    (BallManager.pendingRespawnCount m + Z.of_nat removed * 2)%Z in
  let m' :=
    BallManager.update (isOffScreenBy 2) int_of_size_t 800 600 2
                       (Vector2D.mk 3 4) white m in
  ((0 <= BallManager.pendingRespawnCount m)%Z
   /\ (0 <= 2)%Z
   /\ (enqueued < 2 ^ 31)%Z)
  /\ exists spawned : list Ball.t,
       BallManager.balls m' = kept ++ spawned
       /\ (length spawned <= 1)%nat
       /\ (spawned
           = [BallManager.createRandomBall m (Vector2D.mk 3 4) white
                (BallManager.spawnCenter m)]
           <-> (0 < enqueued)%Z
               /\ BallManager.wouldCollideWithBalls
                    kept (BallManager.ballRadius m)
                    (BallManager.spawnCenter m) = false)
       /\ BallManager.pendingRespawnCount m'
          = (enqueued - Z.of_nat (length spawned))%Z
       /\ (0 <= BallManager.pendingRespawnCount m')%Z
       /\ BallManager.spawnCenter m' = BallManager.spawnCenter m
       /\ BallManager.ballRadius m' = BallManager.ballRadius m.
Proof.
  intros white far near m offScreen kept removed enqueued m'.
  assert (H1 : (0 <= BallManager.pendingRespawnCount m)%Z) by (cbn; lia).
  assert (H2 : (0 <= 2)%Z) by lia.
  assert (H3 : (enqueued < 2 ^ 31)%Z).
  { subst enqueued removed.
    pose proof (filter_length_le offScreen (BallManager.balls m)) as Hle.
    cbn [BallManager.balls BallManager.pendingRespawnCount m length]
      in Hle |- *.
    lia. }
  split; [exact (conj H1 (conj H2 H3))|].
  exact (BallManager_update_lifecycle (isOffScreenBy 2) int_of_size_t
           int_of_size_t_small 800 600 2 (Vector2D.mk 3 4) white m
           H1 H2 H3).
Defined.

(** ** Ball against container: the worked scene

    Real comparisons do not compute; a concrete input is evaluated by
    rewriting, each magnitude read off its square and each comparison
    settled by [lra]. *)

Lemma magnitude_mk (a b m : R) :
  0 <= m -> a * a + b * b = m * m ->
  Vector2D.magnitude (Vector2D.mk a b) = m.
Proof. intros. now apply magnitude_eq. Qed.

Ltac eval_mag m :=
  match goal with
  | |- context [Vector2D.magnitude (Vector2D.mk ?a ?b)] =>
      rewrite (magnitude_mk a b m) by lra
  end.

Ltac eval_cmp :=
  match goal with
  | |- context [Rltb ?a ?b] =>
      first [ rewrite (Rltb_true a b) by lra
            | rewrite (Rltb_false a b) by lra ]
  | |- context [Rleb ?a ?b] =>
      first [ rewrite (Rleb_true a b) by lra
            | rewrite (Rleb_false a b) by lra ]
  end.

Ltac unfold_vec :=
  unfold Vector2D.normalized, Vector2D.distance, Vector2D.dot,
    Vector2D.sub, Vector2D.add, Vector2D.scale, Vector2D.div;
  cbn [Vector2D.x Vector2D.y].

Ltac unfold_scene :=
  unfold box, cornerBall, escapedBall, gapBall, boxEdge0, boxEdge1,
    boxEdge2, boxEdge3, boxGapStart, boxGapEnd, Ball.make, Container.make.

Ltac eval_vec := unfold_vec; repeat (f_equal; try lra).

(** The magnitudes met in the scene. *)
Ltac eval_step :=
  first [ eval_cmp | eval_mag 8 | eval_mag 1 | eval_mag 2 | eval_mag 3
        | eval_mag 4 | eval_mag 5 | eval_mag 6 | eval_mag 7 | eval_mag 11 ];
  cbn [andb orb negb Vector2D.x Vector2D.y].

Ltac eval_probe :=
  unfold_scene;
  unfold probeEdge, closestPointOnEdge, inGapSpan, MathUtils.clamp,
    Container.getCenter;
  unfold_vec;
  cbn [start end_ hasGap Vector2D.x Vector2D.y Ball.position Ball.radius
       Container.center andb];
  repeat eval_step;
  repeat (f_equal; try lra).

Lemma box_corners :
  Container.getWorldCorners box
  = [Vector2D.mk 4 (-4); Vector2D.mk 4 4;
     Vector2D.mk (-4) 4; Vector2D.mk (-4) (-4)].
Proof.
  unfold Container.getWorldCorners, box, Container.make.
  cbn [map Container.sideLength Container.currentAngleRad Container.center
       Vector2D.x Vector2D.y].
  rewrite cos_0, sin_0.
  repeat (f_equal; try lra).
Qed.

Lemma box_edges :
  Container.getWorldEdges box = [boxEdge0; boxEdge1; boxEdge2; boxEdge3].
Proof.
  unfold Container.getWorldEdges. rewrite box_corners. reflexivity.
Qed.

Lemma box_gap :
  Container.getGapBoundaries box = Some (boxGapStart, boxGapEnd).
Proof.
  unfold Container.getGapBoundaries. rewrite box_edges.
  unfold_scene.
  cbn [array_at Z.ltb Z.compare Container.gapSide Z.to_nat nth_error
       start end_ Container.gapSizeFraction].
  unfold_vec. repeat eval_step.
  repeat (f_equal; try lra).
Qed.

Lemma cornerBall_probe0 :
  probeEdge cornerBall box boxGapStart boxGapEnd boxEdge0
  = Some (mkProbe (Vector2D.mk (-6) 0) 6 (Vector2D.mk 1 0) true).
Proof. eval_probe. Qed.

Lemma cornerBall_probe1 :
  probeEdge cornerBall box boxGapStart boxGapEnd boxEdge1
  = Some (mkProbe (Vector2D.mk 0 (-1)) 1 (Vector2D.mk 0 1) true).
Proof. eval_probe. Qed.

Lemma cornerBall_probe2 :
  probeEdge cornerBall box boxGapStart boxGapEnd boxEdge2
  = Some (mkProbe (Vector2D.mk 2 0) 2 (Vector2D.mk (-1) 0) true).
Proof. eval_probe. Qed.

Lemma cornerBall_probe3 :
  probeEdge cornerBall box boxGapStart boxGapEnd boxEdge3
  = Some (mkProbe (Vector2D.mk 0 7) 7 (Vector2D.mk 0 (-1)) true).
Proof. eval_probe. Qed.

Lemma escapedBall_probe0 :
  probeEdge escapedBall box boxGapStart boxGapEnd boxEdge0
  = Some (mkProbe (Vector2D.mk (-4) 3) 5 (Vector2D.mk 1 0) true).
Proof. eval_probe. Qed.

Lemma escapedBall_probe1 :
  probeEdge escapedBall box boxGapStart boxGapEnd boxEdge1
  = Some (mkProbe (Vector2D.mk 0 3) 3 (Vector2D.mk 0 1) false).
Proof. eval_probe. Qed.

Lemma escapedBall_probe2 :
  probeEdge escapedBall box boxGapStart boxGapEnd boxEdge2
  = Some (mkProbe (Vector2D.mk 4 3) 5 (Vector2D.mk (-1) 0) true).
Proof. eval_probe. Qed.

Lemma escapedBall_probe3 :
  probeEdge escapedBall box boxGapStart boxGapEnd boxEdge3
  = Some (mkProbe (Vector2D.mk 0 11) 11 (Vector2D.mk 0 (-1)) true).
Proof. eval_probe. Qed.

Ltac eval_contact :=
  unfold_scene;
  unfold Baseline.edgeContact, Rev002.edgeContact;
  cbn [toBallFromEdge distance edgePerp ballIsInside Ball.radius andb orb
       negb];
  repeat eval_step;
  try reflexivity;
  unfold_vec; repeat (f_equal; try lra).

Ltac eval_edgeStep probe :=
  intros; unfold Baseline.edgeStep, Rev002.edgeStep;
  rewrite probe;
  unfold_scene; unfold Baseline.edgeContact, Rev002.edgeContact, FLT_MAX;
  cbn [toBallFromEdge distance edgePerp ballIsInside Ball.radius andb orb
       negb fst snd];
  repeat eval_step;
  cbn [fst snd];
  repeat eval_step;
  try reflexivity;
  unfold_vec; repeat (f_equal; try lra).

Lemma cornerBall_baseline_step0 (acc : CollisionInfo * R) :
  Baseline.edgeStep cornerBall box boxGapStart boxGapEnd acc boxEdge0 = acc.
Proof. eval_edgeStep cornerBall_probe0. Qed.

Lemma cornerBall_baseline_step1 :
  Baseline.edgeStep cornerBall box boxGapStart boxGapEnd
    (noCollision, FLT_MAX) boxEdge1
  = (mkInfo true (Vector2D.mk 0 1) 2, 2).
Proof. eval_edgeStep cornerBall_probe1. Qed.

Lemma cornerBall_baseline_step2 :
  Baseline.edgeStep cornerBall box boxGapStart boxGapEnd
    (mkInfo true (Vector2D.mk 0 1) 2, 2) boxEdge2
  = (mkInfo true (Vector2D.mk (-1) 0) 1, 1).
Proof. eval_edgeStep cornerBall_probe2. Qed.

Lemma cornerBall_baseline_step3 (acc : CollisionInfo * R) :
  Baseline.edgeStep cornerBall box boxGapStart boxGapEnd acc boxEdge3 = acc.
Proof. eval_edgeStep cornerBall_probe3. Qed.

Lemma cornerBall_baseline :
  Baseline.checkContainerCollision cornerBall box
  = Some (mkInfo true (Vector2D.mk (-1) 0) 1).
Proof.
  unfold Baseline.checkContainerCollision.
  rewrite box_gap, box_edges. cbn [fold_left].
  rewrite cornerBall_baseline_step0, cornerBall_baseline_step1,
    cornerBall_baseline_step2, cornerBall_baseline_step3.
  reflexivity.
Qed.

Lemma cornerBall_rev002_step0 (best : CollisionInfo) :
  Rev002.edgeStep cornerBall box boxGapStart boxGapEnd best boxEdge0 = best.
Proof. eval_edgeStep cornerBall_probe0. Qed.

Lemma cornerBall_rev002_step1 (best : CollisionInfo) :
  Rev002.edgeStep cornerBall box boxGapStart boxGapEnd best boxEdge1
  = mkInfo true (Vector2D.mk 0 1) 2.
Proof. eval_edgeStep cornerBall_probe1. Qed.

Lemma cornerBall_rev002_step2 (best : CollisionInfo) :
  Rev002.edgeStep cornerBall box boxGapStart boxGapEnd best boxEdge2
  = mkInfo true (Vector2D.mk (-1) 0) 1.
Proof. eval_edgeStep cornerBall_probe2. Qed.

Lemma cornerBall_rev002_step3 (best : CollisionInfo) :
  Rev002.edgeStep cornerBall box boxGapStart boxGapEnd best boxEdge3 = best.
Proof. eval_edgeStep cornerBall_probe3. Qed.

Lemma cornerBall_rev002 :
  Rev002.checkContainerCollision cornerBall box
  = Some (mkInfo true (Vector2D.mk (-1) 0) 1).
Proof.
  unfold Rev002.checkContainerCollision.
  rewrite box_gap, box_edges. cbn [fold_left].
  rewrite cornerBall_rev002_step0, cornerBall_rev002_step1,
    cornerBall_rev002_step2, cornerBall_rev002_step3.
  reflexivity.
Qed.

Lemma escapedBall_baseline_step0 (acc : CollisionInfo * R) :
  Baseline.edgeStep escapedBall box boxGapStart boxGapEnd acc boxEdge0 = acc.
Proof. eval_edgeStep escapedBall_probe0. Qed.

Lemma escapedBall_baseline_step1 :
  Baseline.edgeStep escapedBall box boxGapStart boxGapEnd
    (noCollision, FLT_MAX) boxEdge1
  = (mkInfo true (Vector2D.mk 0 1) 4, 4).
Proof. eval_edgeStep escapedBall_probe1. Qed.

Lemma escapedBall_baseline_step2 (acc : CollisionInfo * R) :
  Baseline.edgeStep escapedBall box boxGapStart boxGapEnd acc boxEdge2 = acc.
Proof. eval_edgeStep escapedBall_probe2. Qed.

Lemma escapedBall_baseline_step3 (acc : CollisionInfo * R) :
  Baseline.edgeStep escapedBall box boxGapStart boxGapEnd acc boxEdge3 = acc.
Proof. eval_edgeStep escapedBall_probe3. Qed.

Lemma escapedBall_baseline :
  Baseline.checkContainerCollision escapedBall box
  = Some (mkInfo true (Vector2D.mk 0 1) 4).
Proof.
  unfold Baseline.checkContainerCollision.
  rewrite box_gap, box_edges. cbn [fold_left].
  rewrite escapedBall_baseline_step0, escapedBall_baseline_step1,
    escapedBall_baseline_step2, escapedBall_baseline_step3.
  reflexivity.
Qed.

(** ** Ball against container: which contact is returned *)

(** C1.  The corner ball (centre (-2, 3), radius 3) overlaps the two
    gap-free edges 1 and 2 of the box: edge 1 proposes penetration 2,
    edge 2 proposes penetration 1, in both files.  The contact returned
    is the one of penetration 1, in both files: the baseline keeps the
    smallest penetration ([penetration < minPenetration] from [FLT_MAX]),
    part_002 keeps the last edge's.  The deepest contact, of penetration
    2, is not the one returned. *)
Theorem corner_contact_is_not_the_deepest :
  Container.getWorldEdges box = [boxEdge0; boxEdge1; boxEdge2; boxEdge3]
  /\ Container.getGapBoundaries box = Some (boxGapStart, boxGapEnd)
  /\ (exists p1 p2,
        probeEdge cornerBall box boxGapStart boxGapEnd boxEdge1 = Some p1
        /\ probeEdge cornerBall box boxGapStart boxGapEnd boxEdge2 = Some p2
        /\ Baseline.edgeContact cornerBall p1 = Some (2, Vector2D.mk 0 1)
        /\ Rev002.edgeContact cornerBall p1 = Some (2, Vector2D.mk 0 1)
        /\ Baseline.edgeContact cornerBall p2 = Some (1, Vector2D.mk (-1) 0)
        /\ Rev002.edgeContact cornerBall p2
           = Some (1, Vector2D.mk (-1) 0))
  /\ Baseline.checkContainerCollision cornerBall box
     = Some (mkInfo true (Vector2D.mk (-1) 0) 1)
  /\ Rev002.checkContainerCollision cornerBall box
     = Some (mkInfo true (Vector2D.mk (-1) 0) 1).
Proof.
  split; [exact box_edges|].
  split; [exact box_gap|].
  split.
  - eexists _, _.
    split; [exact cornerBall_probe1|].
    split; [exact cornerBall_probe2|].
    repeat split; eval_contact.
  - split; [exact cornerBall_baseline | exact cornerBall_rev002].
Qed.

(** ** Ball against container: a centre outside an edge *)

(** An edge is on the exterior side of the ball's centre only when the
    centre is off the edge. *)
Lemma probeEdge_outside_distance (ball : Ball.t) (container : Container.t)
    (gapStart gapEnd : Vec) (edge : Edge) (p : EdgeProbe) :
  probeEdge ball container gapStart gapEnd edge = Some p ->
  ballIsInside p = false ->
  1 / 10000 < distance p.
Proof.
  unfold probeEdge. intros Hprobe Hout.
  destruct (Rltb _ (1 / 10000)); [discriminate|].
  destruct (hasGap edge && _); [discriminate|].
  injection Hprobe as <-. cbn [ballIsInside distance] in *.
  match type of Hout with
  | (if Rltb ?a ?b then _ else _) = _ =>
      destruct (Rltb a b) eqn:Hd; [|discriminate]
  end.
  now apply Rltb_true_iff in Hd.
Qed.

(** C2, as the code has it.  Let the centre of the ball be on the exterior
    side of an edge the loop does not skip.  In part_002 the edge
    proposes a contact exactly when the distance from the centre to the
    edge is less than the radius, and with a distance of at least the
    radius the turn of the loop leaves the result as it was.  In
    src/physics/CollisionDetector.cpp the edge always proposes a contact,
    of penetration radius plus distance, along the direction from the
    edge to the centre. *)
Theorem exterior_center_contact (ball : Ball.t) (container : Container.t)
    (gapStart gapEnd : Vec) (edge : Edge) (p : EdgeProbe) :
  probeEdge ball container gapStart gapEnd edge = Some p ->
  ballIsInside p = false ->
  ((exists contact, Rev002.edgeContact ball p = Some contact)
   <-> distance p < Ball.radius ball)
  /\ (Ball.radius ball <= distance p ->
      forall best : CollisionInfo,
        Rev002.edgeStep ball container gapStart gapEnd best edge = best)
  /\ Baseline.edgeContact ball p
     = Some (Ball.radius ball + distance p,
             Vector2D.div (toBallFromEdge p) (distance p)).
Proof.
  intros Hprobe Hout.
  pose proof (probeEdge_outside_distance _ _ _ _ _ _ Hprobe Hout) as Hd.
  split; [|split].
  - unfold Rev002.edgeContact.
    destruct (Rltb (distance p) (Ball.radius ball)) eqn:Hlt.
    + apply Rltb_true_iff in Hlt. split; [tauto|]. intros _. eauto.
    + apply Rltb_false_iff in Hlt. split.
      * intros [contact Hc]. discriminate.
      * lra.
  - intros Hfar best. unfold Rev002.edgeStep, Rev002.edgeContact.
    rewrite Hprobe, Rltb_false by exact Hfar. reflexivity.
  - unfold Baseline.edgeContact. rewrite Hout. cbn [andb orb negb].
    rewrite Rltb_true by exact Hd. reflexivity.
Qed.

(** Edge 1 of the box and the ball at (0, 7), three units above it. *)
Lemma exterior_center_contact_witness :
  let p := mkProbe (Vector2D.mk 0 3) 3 (Vector2D.mk 0 1) false in
  (probeEdge escapedBall box boxGapStart boxGapEnd boxEdge1 = Some p
   /\ ballIsInside p = false)
  /\ ((exists contact, Rev002.edgeContact escapedBall p = Some contact)
      <-> distance p < Ball.radius escapedBall)
  /\ (Ball.radius escapedBall <= distance p ->
      forall best : CollisionInfo,
        Rev002.edgeStep escapedBall box boxGapStart boxGapEnd best boxEdge1
        = best)
  /\ Baseline.edgeContact escapedBall p
     = Some (Ball.radius escapedBall + distance p,
             Vector2D.div (toBallFromEdge p) (distance p)).
Proof.
  intros p.
  split; [exact (conj escapedBall_probe1 eq_refl)|].
  exact (exterior_center_contact escapedBall box boxGapStart boxGapEnd
           boxEdge1 p escapedBall_probe1 eq_refl).
Defined.

(** C2, as stated, fails on src/physics/CollisionDetector.cpp.  The ball
    of radius 1 at (0, 7) has its centre on the exterior side of edge 1
    of the box, at distance 3 from it, which is not less than the radius;
    edge 1 still proposes a contact, of penetration 4, and it is the
    contact returned. *)
Lemma escaped_center_contacts_in_baseline :
  exists p,
    probeEdge escapedBall box boxGapStart boxGapEnd boxEdge1 = Some p
    /\ ballIsInside p = false
    /\ Ball.radius escapedBall <= distance p
    /\ Baseline.edgeContact escapedBall p = Some (4, Vector2D.mk 0 1)
    /\ Baseline.checkContainerCollision escapedBall box
       = Some (mkInfo true (Vector2D.mk 0 1) 4).
Proof.
  eexists. split; [exact escapedBall_probe1|].
  split; [reflexivity|].
  split; [cbn; lra|].
  split; [eval_contact | exact escapedBall_baseline].
Qed.

(** ** Ball against container: the gap *)

(** A loop whose turn does nothing on the elements marked by [skip] runs
    as on the list without them. *)
Lemma fold_left_skip {A B : Type} (f : A -> B -> A) (skip : B -> bool)
    (l : list B) :
  (forall b, In b l -> skip b = true -> forall a, f a b = a) ->
  forall a,
    fold_left f l a = fold_left f (filter (fun b => negb (skip b)) l) a.
Proof.
  induction l as [|b rest IH]; intros Hskip a; simpl; [reflexivity|].
  destruct (skip b) eqn:Hb; simpl.
  - rewrite (Hskip b (or_introl eq_refl) Hb).
    apply IH. intros b' Hin. apply Hskip. now right.
  - apply IH. intros b' Hin. apply Hskip. now right.
Qed.

Lemma probeEdge_in_gap (ball : Ball.t) (container : Container.t)
    (gapStart gapEnd : Vec) (edge : Edge) :
  hasGap edge = true ->
  Vector2D.distance (closestPointOnEdge ball edge) gapStart
  + Vector2D.distance (closestPointOnEdge ball edge) gapEnd
  <= Vector2D.distance gapStart gapEnd + 1 / 2 ->
  probeEdge ball container gapStart gapEnd edge = None.
Proof.
  intros Hgap Hspan. unfold probeEdge.
  destruct (Rltb _ (1 / 10000)); [reflexivity|].
  rewrite Hgap. unfold inGapSpan.
  rewrite Rleb_true by exact Hspan. reflexivity.
Qed.

(** C3.  Let the closest point of the gap-bearing edge to the ball's
    centre lie in the gap span: its distances to the two gap endpoints
    sum to at most the gap length plus the tolerance [0.5].  Then that
    edge proposes nothing, however close the ball is: its turn of the
    loop is a [continue], it leaves the running result as it was, and
    [checkContainerCollision] returns what the loop over the other edges
    returns.  This holds in src/physics/CollisionDetector.cpp and in
    part_002, for every ball, container and rotation angle. *)
Theorem gap_span_gives_no_contact (ball : Ball.t) (container : Container.t)
    (gapStart gapEnd : Vec) :
  Container.getGapBoundaries container = Some (gapStart, gapEnd) ->
  (forall edge,
     In edge (Container.getWorldEdges container) ->
     hasGap edge = true ->
     Vector2D.distance (closestPointOnEdge ball edge) gapStart
     + Vector2D.distance (closestPointOnEdge ball edge) gapEnd
     <= Vector2D.distance gapStart gapEnd + 1 / 2) ->
  let others :=
    filter (fun e => negb (hasGap e)) (Container.getWorldEdges container) in
  (forall edge,
     In edge (Container.getWorldEdges container) ->
     hasGap edge = true ->
     probeEdge ball container gapStart gapEnd edge = None
     /\ (forall acc,
           Baseline.edgeStep ball container gapStart gapEnd acc edge = acc)
     /\ (forall best,
           Rev002.edgeStep ball container gapStart gapEnd best edge = best))
  /\ Baseline.checkContainerCollision ball container
     = Some (fst (fold_left
                    (Baseline.edgeStep ball container gapStart gapEnd)
                    others (noCollision, FLT_MAX)))
  /\ Rev002.checkContainerCollision ball container
     = Some (fold_left (Rev002.edgeStep ball container gapStart gapEnd)
                       others noCollision).
Proof.
  intros Hgap Hspan others.
  assert (Hedge : forall edge,
             In edge (Container.getWorldEdges container) ->
             hasGap edge = true ->
             probeEdge ball container gapStart gapEnd edge = None
             /\ (forall acc,
                   Baseline.edgeStep ball container gapStart gapEnd acc edge
                   = acc)
             /\ (forall best,
                   Rev002.edgeStep ball container gapStart gapEnd best edge
                   = best)).
  { intros edge Hin Hhas.
    pose proof (probeEdge_in_gap ball container gapStart gapEnd edge Hhas
                  (Hspan edge Hin Hhas)) as Hnone.
    split; [exact Hnone|].
    split; intros acc; unfold Baseline.edgeStep, Rev002.edgeStep;
      rewrite Hnone; reflexivity. }
  split; [exact Hedge|]. split.
  - unfold Baseline.checkContainerCollision. rewrite Hgap.
    rewrite (fold_left_skip _ hasGap); [reflexivity|].
    intros edge Hin Hhas. now apply Hedge.
  - unfold Rev002.checkContainerCollision. rewrite Hgap.
    rewrite (fold_left_skip _ hasGap); [reflexivity|].
    intros edge Hin Hhas. now apply Hedge.
Qed.

Lemma gapBall_in_gap_span (edge : Edge) :
  In edge (Container.getWorldEdges box) ->
  hasGap edge = true ->
  Vector2D.distance (closestPointOnEdge gapBall edge) boxGapStart
  + Vector2D.distance (closestPointOnEdge gapBall edge) boxGapEnd
  <= Vector2D.distance boxGapStart boxGapEnd + 1 / 2.
Proof.
  rewrite box_edges.
  intros [<- | [<- | [<- | [<- | []]]]] Hhas; try discriminate Hhas.
  unfold_scene. unfold closestPointOnEdge, MathUtils.clamp. unfold_vec.
  cbn [start end_ Vector2D.x Vector2D.y Ball.position].
  repeat eval_step. lra.
Qed.

(** The ball at the midpoint of the gap-bearing edge 0 of the box. *)
Lemma gap_span_gives_no_contact_witness :
  let others :=
    filter (fun e => negb (hasGap e)) (Container.getWorldEdges box) in
  (Container.getGapBoundaries box = Some (boxGapStart, boxGapEnd)
   /\ forall edge,
        In edge (Container.getWorldEdges box) ->
        hasGap edge = true ->
        Vector2D.distance (closestPointOnEdge gapBall edge) boxGapStart
        + Vector2D.distance (closestPointOnEdge gapBall edge) boxGapEnd
        <= Vector2D.distance boxGapStart boxGapEnd + 1 / 2)
  /\ (forall edge,
        In edge (Container.getWorldEdges box) ->
        hasGap edge = true ->
        probeEdge gapBall box boxGapStart boxGapEnd edge = None
        /\ (forall acc,
              Baseline.edgeStep gapBall box boxGapStart boxGapEnd acc edge
              = acc)
        /\ (forall best,
              Rev002.edgeStep gapBall box boxGapStart boxGapEnd best edge
              = best))
  /\ Baseline.checkContainerCollision gapBall box
     = Some (fst (fold_left
                    (Baseline.edgeStep gapBall box boxGapStart boxGapEnd)
                    others (noCollision, FLT_MAX)))
  /\ Rev002.checkContainerCollision gapBall box
     = Some (fold_left (Rev002.edgeStep gapBall box boxGapStart boxGapEnd)
                       others noCollision).
Proof.
  intros others.
  split; [exact (conj box_gap gapBall_in_gap_span)|].
  exact (gap_span_gives_no_contact gapBall box boxGapStart boxGapEnd
           box_gap gapBall_in_gap_span).
Defined.

(** * Further properties of the code *)

(** ** Ball against ball: symmetry, bounds, coincidence *)

Lemma magnitudeSquared_sub_comm (a b : Vec) :
  Vector2D.magnitudeSquared (Vector2D.sub a b)
  = Vector2D.magnitudeSquared (Vector2D.sub b a).
Proof. unfold Vector2D.magnitudeSquared, Vector2D.sub. simpl. ring. Qed.

(** X1.  [checkBallCollision] does not depend on the order of the two
    balls but for the direction of the normal: swapping the balls keeps
    the flag and the penetration and reverses the normal. *)
Theorem checkBallCollision_swap (ballA ballB : Ball.t) :
  let ab := Baseline.checkBallCollision ballA ballB in
  let ba := Baseline.checkBallCollision ballB ballA in
  hasCollision ab = hasCollision ba
  /\ penetration ab = penetration ba
  /\ normal ab = Vector2D.scale (normal ba) (-1).
Proof.
  intros ab ba. subst ab ba. unfold Baseline.checkBallCollision.
  rewrite (magnitudeSquared_sub_comm (Ball.position ballB)
             (Ball.position ballA)).
  rewrite (Rplus_comm (Ball.radius ballA) (Ball.radius ballB)).
  destruct (Rltb _ _ && Rltb _ _); cbn [hasCollision penetration normal].
  - repeat split.
    apply vec_eq; unfold Vector2D.scale, Vector2D.div, Vector2D.sub;
      cbn [Vector2D.x Vector2D.y]; unfold Rdiv; ring.
  - repeat split. apply vec_eq; simpl; ring.
Qed.



(** X3.  Two balls at the same position never collide, whatever their
    radii: the result is the default, contact-free record. *)
Theorem checkBallCollision_coincident (ballA ballB : Ball.t) :
  Ball.position ballA = Ball.position ballB ->
  Baseline.checkBallCollision ballA ballB = noCollision.
Proof.
  intros Hpos. unfold Baseline.checkBallCollision. rewrite Hpos.
  assert (Hzero : Vector2D.magnitudeSquared
                    (Vector2D.sub (Ball.position ballB)
                                  (Ball.position ballB)) = 0).
  { unfold Vector2D.magnitudeSquared, Vector2D.sub. simpl. ring. }
  rewrite Hzero.
  rewrite (Rltb_false (1 / 10000) 0) by lra.
  rewrite andb_false_r. reflexivity.
Qed.

(** A ball and a larger copy of it at the same place. *)
Lemma checkBallCollision_coincident_witness :
  let a := Ball.make (Vector2D.mk 2 5) (Vector2D.mk 0 0) 1 white in
  let b := Ball.make (Vector2D.mk 2 5) (Vector2D.mk 1 1) 3 white in
  Ball.position a = Ball.position b
  /\ Baseline.checkBallCollision a b = noCollision.
Proof.
  intros a b. split; [reflexivity|].
  exact (checkBallCollision_coincident a b eq_refl).
Defined.

(** ** Ball against container: which proposal is returned *)

Lemma baseline_edgeStep_proposal (ball : Ball.t) (container : Container.t)
    (gapStart gapEnd : Vec) (acc : CollisionInfo * R) (edge : Edge) :
  Baseline.edgeStep ball container gapStart gapEnd acc edge
  = match edgeProposal Baseline.edgeContact ball container gapStart gapEnd
            edge with
    | None => acc
    | Some (penetration, normal) =>
        if Rltb penetration (snd acc)
        then (mkInfo true normal penetration, penetration)
        else acc
    end.
Proof.
  unfold Baseline.edgeStep, edgeProposal.
  destruct (probeEdge ball container gapStart gapEnd edge); reflexivity.
Qed.

Lemma rev002_edgeStep_proposal (ball : Ball.t) (container : Container.t)
    (gapStart gapEnd : Vec) (best : CollisionInfo) (edge : Edge) :
  Rev002.edgeStep ball container gapStart gapEnd best edge
  = last (proposalInfo
            (edgeProposal Rev002.edgeContact ball container gapStart
               gapEnd edge))
         best.
Proof.
  unfold Rev002.edgeStep, edgeProposal, proposalInfo.
  destruct (probeEdge ball container gapStart gapEnd edge) as [p|];
    [|reflexivity].
  destruct (Rev002.edgeContact ball p) as [[penetration normal]|];
    reflexivity.
Qed.

Lemma last_cons_default {A : Type} (l : list A) (a d d' : A) :
  last (a :: l) d = last (a :: l) d'.
Proof.
  revert a. induction l as [|b l IH]; intros a; [reflexivity|].
  change (last (b :: l) d = last (b :: l) d'). apply IH.
Qed.

Lemma last_cons_shift {A : Type} (l : list A) (a d : A) :
  last (a :: l) d = last l a.
Proof.
  destruct l as [|b l]; [reflexivity|].
  change (last (b :: l) d = last (b :: l) a). apply last_cons_default.
Qed.

Lemma last_app_default {A : Type} (l1 l2 : list A) (d : A) :
  last (l1 ++ l2) d = last l2 (last l1 d).
Proof.
  revert d. induction l1 as [|a l1 IH]; intros d; [reflexivity|].
  rewrite <- app_comm_cons, !last_cons_shift. apply IH.
Qed.

Lemma last_default_or_in {A : Type} (l : list A) (d : A) :
  (l = [] /\ last l d = d) \/ In (last l d) l.
Proof.
  induction l as [|a l IH]; [left; split; reflexivity|].
  right. destruct l as [|b l]; [now left|].
  destruct IH as [[Hnil _] | Hin]; [discriminate|].
  right. exact Hin.
Qed.

(** The loop of the baseline keeps the smallest penetration proposed so
    far below its starting bound. *)
Lemma baseline_fold_shallowest (ball : Ball.t) (container : Container.t)
    (gapStart gapEnd : Vec) (edges : list Edge) (acc0 : CollisionInfo * R) :
  let proposal :=
    edgeProposal Baseline.edgeContact ball container gapStart gapEnd in
  let acc :=
    fold_left (Baseline.edgeStep ball container gapStart gapEnd) edges
              acc0 in
  snd acc <= snd acc0
  /\ (forall edge pen n,
        In edge edges -> proposal edge = Some (pen, n) ->
        snd acc <= pen)
  /\ (acc = acc0
      \/ (snd acc < snd acc0
          /\ fst acc
             = mkInfo true (normal (fst acc)) (snd acc)
          /\ exists edge,
               In edge edges
               /\ proposal edge
                  = Some (snd acc, normal (fst acc)))).
Proof.
  intros proposal. revert acc0.
  induction edges as [|e rest IH]; intros acc0; cbn [fold_left].
  - split; [lra|]. split; [intros ? ? ? []|]. now left.
  - remember (Baseline.edgeStep ball container gapStart gapEnd acc0 e)
      as acc1 eqn:Hacc1.
    rewrite baseline_edgeStep_proposal in Hacc1. fold proposal in Hacc1.
    specialize (IH acc1). cbv zeta in IH.
    destruct IH as (Hle & Hall & Horigin).
    set (acc := fold_left _ rest acc1) in *.
    assert (Hstep : snd acc1 <= snd acc0
                    /\ (forall pen n, proposal e = Some (pen, n) ->
                                      snd acc1 <= pen)
                    /\ (acc1 = acc0
                        \/ (snd acc1 < snd acc0
                            /\ acc1 = (mkInfo true (normal (fst acc1))
                                              (snd acc1), snd acc1)
                            /\ proposal e
                               = Some (snd acc1, normal (fst acc1))))).
    { destruct (proposal e) as [[pen n]|] eqn:He.
      - destruct (Rltb pen (snd acc0)) eqn:Hlt.
        + apply Rltb_true_iff in Hlt. subst acc1. cbn [fst snd normal].
          split; [lra|]. split.
          * intros pen' n' Hp. injection Hp as <- <-. lra.
          * right. split; [exact Hlt|]. split; reflexivity.
        + apply Rltb_false_iff in Hlt. subst acc1.
          split; [lra|]. split; [|now left].
          intros pen' n' Hp. injection Hp as <- <-. exact Hlt.
      - subst acc1. split; [lra|]. split; [|now left].
        intros pen' n' Hp. discriminate. }
    destruct Hstep as (Hle1 & Hall1 & Horigin1).
    split; [lra|]. split.
    + intros edge pen n [<- | Hin] Hp.
      * pose proof (Hall1 pen n Hp). lra.
      * exact (Hall edge pen n Hin Hp).
    + destruct Horigin as [Heq | (Hlt' & Hfst & edge & Hin & Hp)].
      * rewrite Heq.
        destruct Horigin1 as [Heq1 | (Hlt1 & Hacc & Hp)]; [now left|].
        right. split; [exact Hlt1|]. split.
        -- rewrite Hacc at 1. reflexivity.
        -- exists e. split; [now left|exact Hp].
      * right. split; [lra|]. split; [exact Hfst|].
        exists edge. split; [now right|exact Hp].
Qed.

(** X4.  In src/physics/CollisionDetector.cpp the contact returned is the
    shallowest one proposed: as soon as an edge proposes a penetration
    below [FLT_MAX] a contact is returned, its penetration is at most
    that of every proposal, and it is the proposal of one of the edges;
    a result without contact is the default record. *)
Theorem baseline_returns_the_shallowest (ball : Ball.t)
    (container : Container.t) (gapStart gapEnd : Vec) :
  Container.getGapBoundaries container = Some (gapStart, gapEnd) ->
  let proposal :=
    edgeProposal Baseline.edgeContact ball container gapStart gapEnd in
  exists r,
    Baseline.checkContainerCollision ball container = Some r
    /\ (forall edge pen n,
          In edge (Container.getWorldEdges container) ->
          proposal edge = Some (pen, n) ->
          pen < FLT_MAX ->
          hasCollision r = true /\ penetration r <= pen)
    /\ (hasCollision r = true ->
        exists edge,
          In edge (Container.getWorldEdges container)
          /\ proposal edge
             = Some (penetration r,
                     normal r))
    /\ (hasCollision r = false -> r = noCollision).
Proof.
  intros Hgap proposal. unfold Baseline.checkContainerCollision.
  rewrite Hgap. eexists. split; [reflexivity|].
  destruct (baseline_fold_shallowest ball container gapStart gapEnd
              (Container.getWorldEdges container) (noCollision, FLT_MAX))
    as (Hle & Hall & Horigin).
  fold proposal in Hall, Horigin.
  set (acc := fold_left _ _ _) in *. cbn [snd] in Hle.
  split; [|split].
  - intros edge pen n Hin Hp Hlt.
    pose proof (Hall edge pen n Hin Hp) as Hmin.
    destruct Horigin as [Heq | (Hlt' & Hfst & _)].
    + rewrite Heq in Hmin. cbn [snd] in Hmin. lra.
    + rewrite Hfst. cbn [hasCollision penetration]. split; [reflexivity|].
      exact Hmin.
  - intros Hhas. destruct Horigin as [Heq | (_ & Hfst & edge & Hin & Hp)].
    + rewrite Heq in Hhas. discriminate.
    + exists edge. split; [exact Hin|]. rewrite Hp. f_equal. f_equal.
      rewrite Hfst. reflexivity.
  - intros Hhas. destruct Horigin as [Heq | (_ & Hfst & _)].
    + rewrite Heq. reflexivity.
    + rewrite Hfst in Hhas. discriminate.
Qed.

(** The box and the corner ball: edges 1 and 2 both propose. *)
Lemma baseline_returns_the_shallowest_witness :
  let proposal :=
    edgeProposal Baseline.edgeContact cornerBall box boxGapStart
                 boxGapEnd in
  Container.getGapBoundaries box = Some (boxGapStart, boxGapEnd)
  /\ exists r,
       Baseline.checkContainerCollision cornerBall box = Some r
       /\ (forall edge pen n,
             In edge (Container.getWorldEdges box) ->
             proposal edge = Some (pen, n) ->
             pen < FLT_MAX ->
             hasCollision r = true
             /\ penetration r <= pen)
       /\ (hasCollision r = true ->
           exists edge,
             In edge (Container.getWorldEdges box)
             /\ proposal edge
                = Some (penetration r,
                        normal r))
       /\ (hasCollision r = false -> r = noCollision).
Proof.
  intros proposal. split; [exact box_gap|].
  exact (baseline_returns_the_shallowest cornerBall box boxGapStart
           boxGapEnd box_gap).
Defined.

Lemma rev002_fold_last (ball : Ball.t) (container : Container.t)
    (gapStart gapEnd : Vec) (edges : list Edge) (best : CollisionInfo) :
  fold_left (Rev002.edgeStep ball container gapStart gapEnd) edges best
  = last (flat_map
            (fun edge =>
               proposalInfo
                 (edgeProposal Rev002.edgeContact ball container gapStart
                    gapEnd edge))
            edges)
         best.
Proof.
  revert best. induction edges as [|e rest IH]; intros best;
    cbn [fold_left flat_map]; [reflexivity|].
  rewrite IH, last_app_default, rev002_edgeStep_proposal. reflexivity.
Qed.

(** X5.  In part_002 the contact returned is the proposal of the last
    edge, in the order of [getWorldEdges], that proposes one, and the
    default record when no edge proposes. *)
Theorem rev002_returns_the_last_proposal (ball : Ball.t)
    (container : Container.t) (gapStart gapEnd : Vec) :
  Container.getGapBoundaries container = Some (gapStart, gapEnd) ->
  Rev002.checkContainerCollision ball container
  = Some (last
            (flat_map
               (fun edge =>
                  proposalInfo
                    (edgeProposal Rev002.edgeContact ball container
                       gapStart gapEnd edge))
               (Container.getWorldEdges container))
            noCollision).
Proof.
  intros Hgap. unfold Rev002.checkContainerCollision. rewrite Hgap.
  f_equal. apply rev002_fold_last.
Qed.

(** The box and the corner ball. *)
Lemma rev002_returns_the_last_proposal_witness :
  Container.getGapBoundaries box = Some (boxGapStart, boxGapEnd)
  /\ Rev002.checkContainerCollision cornerBall box
     = Some (last
               (flat_map
                  (fun edge =>
                     proposalInfo
                       (edgeProposal Rev002.edgeContact cornerBall box
                          boxGapStart boxGapEnd edge))
                  (Container.getWorldEdges box))
               noCollision).
Proof.
  split; [exact box_gap|].
  exact (rev002_returns_the_last_proposal cornerBall box boxGapStart
           boxGapEnd box_gap).
Defined.

(** ** Ball against container: what a probe holds *)

Lemma probeEdge_fields (ball : Ball.t) (container : Container.t)
    (gapStart gapEnd : Vec) (edge : Edge) (p : EdgeProbe) :
  probeEdge ball container gapStart gapEnd edge = Some p ->
  let edgeVector := Vector2D.sub (end_ edge) (start edge) in
  let edgeLength := Vector2D.magnitude edgeVector in
  let edgeDir := Vector2D.div edgeVector edgeLength in
  let perp := Vector2D.mk (- Vector2D.y edgeDir) (Vector2D.x edgeDir) in
  let centerToEdge :=
    Vector2D.sub
      (Vector2D.scale (Vector2D.add (start edge) (end_ edge)) (1 / 2))
      (Container.getCenter container) in
  1 / 10000 <= edgeLength
  /\ toBallFromEdge p
     = Vector2D.sub (Ball.position ball) (closestPointOnEdge ball edge)
  /\ distance p = Vector2D.magnitude (toBallFromEdge p)
  /\ (edgePerp p = perp \/ edgePerp p = Vector2D.scale perp (-1))
  /\ 0 <= Vector2D.dot (edgePerp p) centerToEdge
  /\ ballIsInside p
     = (if Rltb (1 / 10000) (distance p)
        then Rltb (Vector2D.dot
                     (Vector2D.div (toBallFromEdge p) (distance p))
                     (edgePerp p)) 0
        else true).
Proof.
  unfold probeEdge. intros Hprobe.
  destruct (Rltb _ (1 / 10000)) eqn:Hlen; [discriminate|].
  apply Rltb_false_iff in Hlen.
  destruct (hasGap edge && _); [discriminate|].
  injection Hprobe as <-.
  cbn [toBallFromEdge distance edgePerp ballIsInside].
  split; [exact Hlen|]. split; [reflexivity|]. split; [reflexivity|].
  match goal with
  | |- context [if Rltb ?a 0 then _ else _] =>
      destruct (Rltb a 0) eqn:Hflip
  end.
  - apply Rltb_true_iff in Hflip.
    split; [now right|]. split; [|reflexivity].
    unfold Vector2D.dot, Vector2D.scale in *.
    cbn [Vector2D.x Vector2D.y] in *. lra.
  - apply Rltb_false_iff in Hflip.
    split; [now left|]. split; [exact Hflip | reflexivity].
Qed.

Lemma magnitude_scale_neg (v : Vec) :
  Vector2D.magnitude (Vector2D.scale v (-1)) = Vector2D.magnitude v.
Proof.
  unfold Vector2D.magnitude. f_equal.
  unfold Vector2D.magnitudeSquared, Vector2D.scale. simpl. ring.
Qed.

Lemma probeEdge_edgePerp_unit (ball : Ball.t) (container : Container.t)
    (gapStart gapEnd : Vec) (edge : Edge) (p : EdgeProbe) :
  probeEdge ball container gapStart gapEnd edge = Some p ->
  Vector2D.magnitude (edgePerp p) = 1.
Proof.
  intros Hprobe.
  destruct (probeEdge_fields _ _ _ _ _ _ Hprobe)
    as (Hlen & _ & _ & Hperp & _).
  set (v := Vector2D.sub (end_ edge) (start edge)) in *.
  assert (Hunit : Vector2D.magnitude
                    (Vector2D.mk
                       (- Vector2D.y (Vector2D.div v (Vector2D.magnitude v)))
                       (Vector2D.x (Vector2D.div v (Vector2D.magnitude v))))
                  = 1).
  { apply magnitude_eq; [lra|].
    pose proof (magnitude_square v) as Hsq.
    unfold Vector2D.magnitudeSquared, Vector2D.div in *.
    cbn [Vector2D.x Vector2D.y].
    set (L := Vector2D.magnitude v) in *.
    transitivity ((Vector2D.x v * Vector2D.x v + Vector2D.y v * Vector2D.y v)
                  / (L * L)).
    - field. lra.
    - rewrite <- Hsq. field. lra. }
  destruct Hperp as [-> | ->]; [|rewrite magnitude_scale_neg]; exact Hunit.
Qed.

Lemma probeEdge_direction_unit (ball : Ball.t) (container : Container.t)
    (gapStart gapEnd : Vec) (edge : Edge) (p : EdgeProbe) :
  probeEdge ball container gapStart gapEnd edge = Some p ->
  1 / 10000 < distance p ->
  Vector2D.magnitude (Vector2D.div (toBallFromEdge p) (distance p)) = 1.
Proof.
  intros Hprobe Hd.
  destruct (probeEdge_fields _ _ _ _ _ _ Hprobe) as (_ & _ & Hdist & _).
  rewrite Hdist in *. apply magnitude_div_self. lra.
Qed.

(** Every normal an edge proposes has length one, in both files. *)
Lemma edgeProposal_normal_unit (ball : Ball.t) (container : Container.t)
    (gapStart gapEnd : Vec) (edge : Edge) (pen : R) (n : Vec) :
  edgeProposal Baseline.edgeContact ball container gapStart gapEnd edge
    = Some (pen, n)
  \/ edgeProposal Rev002.edgeContact ball container gapStart gapEnd edge
    = Some (pen, n) ->
  Vector2D.magnitude n = 1.
Proof.
  unfold edgeProposal.
  destruct (probeEdge ball container gapStart gapEnd edge) as [p|] eqn:Hp;
    [|intros [H | H]; discriminate].
  pose proof (probeEdge_edgePerp_unit _ _ _ _ _ _ Hp) as Hperp.
  pose proof (probeEdge_direction_unit _ _ _ _ _ _ Hp) as Hdir.
  unfold Baseline.edgeContact, Rev002.edgeContact.
  destruct (Rltb (1 / 10000) (distance p)) eqn:Hd.
  - apply Rltb_true_iff in Hd. specialize (Hdir Hd).
    intros [H | H].
    + destruct (_ || _); [|discriminate].
      destruct (ballIsInside p); injection H as _ <-;
        [rewrite magnitude_scale_neg|]; exact Hdir.
    + destruct (Rltb (distance p) (Ball.radius ball)); [|discriminate].
      injection H as _ <-. rewrite magnitude_scale_neg. exact Hdir.
  - intros [H | H].
    + destruct (_ || _); [|discriminate].
      destruct (ballIsInside p); injection H as _ <-; exact Hperp.
    + destruct (Rltb (distance p) (Ball.radius ball)); [|discriminate].
      destruct (ballIsInside p); injection H as _ <-;
        [|rewrite magnitude_scale_neg]; exact Hperp.
Qed.

Lemma rev002_result_origin (ball : Ball.t) (container : Container.t)
    (gapStart gapEnd : Vec) (r : CollisionInfo) :
  Container.getGapBoundaries container = Some (gapStart, gapEnd) ->
  Rev002.checkContainerCollision ball container = Some r ->
  r = noCollision
  \/ exists edge pen n,
       In edge (Container.getWorldEdges container)
       /\ edgeProposal Rev002.edgeContact ball container gapStart gapEnd
            edge = Some (pen, n)
       /\ r = mkInfo true n pen.
Proof.
  intros Hgap Hres.
  unfold Rev002.checkContainerCollision in Hres.
  rewrite Hgap, rev002_fold_last in Hres.
  remember (Container.getWorldEdges container) as edges eqn:Hedges.
  clear Hedges. injection Hres as <-.
  match goal with
  | |- last ?l ?d = _ \/ _ => destruct (last_default_or_in l d)
                                as [[_ Hd] | Hin]
  end; [now left|].
  right. apply in_flat_map in Hin. destruct Hin as (edge & Hin & Hprop).
  destruct (edgeProposal Rev002.edgeContact ball container gapStart gapEnd
              edge) as [[pen n]|] eqn:He; [|destruct Hprop].
  destruct Hprop as [<- | []].
  exists edge, pen, n. repeat split; assumption.
Qed.

(** X6.  In part_002 a reported container contact has a penetration that
    is positive and at most the ball's radius; so a ball whose radius is
    not positive never gets a contact. *)
Theorem rev002_penetration_bounds (ball : Ball.t) (container : Container.t)
    (r : CollisionInfo) :
  Rev002.checkContainerCollision ball container = Some r ->
  hasCollision r = true ->
  0 < penetration r <= Ball.radius ball.
Proof.
  intros Hres Hhas.
  destruct (Container.getGapBoundaries container) as [[gapStart gapEnd]|]
    eqn:Hgap.
  2:{ unfold Rev002.checkContainerCollision in Hres. rewrite Hgap in Hres.
      discriminate. }
  destruct (rev002_result_origin _ _ _ _ _ Hgap Hres)
    as [-> | (edge & pen & n & _ & He & ->)]; [discriminate|].
  unfold edgeProposal in He.
  destruct (probeEdge ball container gapStart gapEnd edge) as [p|] eqn:Hp;
    [|discriminate].
  destruct (probeEdge_fields _ _ _ _ _ _ Hp) as (_ & _ & Hdist & _).
  pose proof (magnitude_nonneg (toBallFromEdge p)) as Hnonneg.
  unfold Rev002.edgeContact in He.
  destruct (Rltb (distance p) (Ball.radius ball)) eqn:Hlt; [|discriminate].
  apply Rltb_true_iff in Hlt. injection He as <- _.
  cbn [penetration]. lra.
Qed.

(** The corner ball in the box: penetration 1, radius 3. *)
Lemma rev002_penetration_bounds_witness :
  let r := mkInfo true (Vector2D.mk (-1) 0) 1 in
  (Rev002.checkContainerCollision cornerBall box = Some r
   /\ hasCollision r = true)
  /\ 0 < penetration r <= Ball.radius cornerBall.
Proof.
  intros r. split; [exact (conj cornerBall_rev002 eq_refl)|].
  exact (rev002_penetration_bounds cornerBall box r cornerBall_rev002
           eq_refl).
Defined.

(** X7.  A container contact, as returned by
    src/physics/CollisionDetector.cpp or by part_002, has a normal of
    length one, fallback normals included. *)
Theorem container_contact_normal_is_unit (ball : Ball.t)
    (container : Container.t) (r : CollisionInfo) :
  Baseline.checkContainerCollision ball container = Some r
  \/ Rev002.checkContainerCollision ball container = Some r ->
  hasCollision r = true ->
  Vector2D.magnitude (normal r) = 1.
Proof.
  intros Hres Hhas.
  destruct (Container.getGapBoundaries container) as [[gapStart gapEnd]|]
    eqn:Hgap.
  2:{ unfold Baseline.checkContainerCollision,
        Rev002.checkContainerCollision in Hres.
      rewrite Hgap in Hres. destruct Hres; discriminate. }
  destruct Hres as [Hres | Hres].
  - unfold Baseline.checkContainerCollision in Hres. rewrite Hgap in Hres.
    destruct (baseline_fold_shallowest ball container gapStart gapEnd
                (Container.getWorldEdges container) (noCollision, FLT_MAX))
      as (_ & _ & Horigin).
    remember (fold_left _ _ _) as acc eqn:Hacc. clear Hacc.
    injection Hres as <-.
    destruct Horigin as [-> | (_ & _ & edge & _ & He)]; [discriminate|].
    apply (edgeProposal_normal_unit ball container gapStart gapEnd edge
             (snd acc)).
    now left.
  - destruct (rev002_result_origin _ _ _ _ _ Hgap Hres)
      as [-> | (edge & pen & n & _ & He & ->)]; [discriminate|].
    apply (edgeProposal_normal_unit ball container gapStart gapEnd edge pen).
    now right.
Qed.

(** The corner ball in the box, baseline file. *)
Lemma container_contact_normal_is_unit_witness :
  let r := mkInfo true (Vector2D.mk (-1) 0) 1 in
  ((Baseline.checkContainerCollision cornerBall box = Some r
    \/ Rev002.checkContainerCollision cornerBall box = Some r)
   /\ hasCollision r = true)
  /\ Vector2D.magnitude (normal r) = 1.
Proof.
  intros r.
  split; [exact (conj (or_introl cornerBall_baseline) eq_refl)|].
  exact (container_contact_normal_is_unit cornerBall box r
           (or_introl cornerBall_baseline) eq_refl).
Defined.

(** ** Ball against container: direction of the baseline normal *)

(** X8.  In src/physics/CollisionDetector.cpp the normal an edge proposes
    never points to the interior side of that edge: the edge's
    perpendicular is turned away from the container's centre, and the
    normal has no component against it, for a centre inside, on, or
    outside the edge. *)
Theorem baseline_normal_points_outward (ball : Ball.t)
    (container : Container.t) (gapStart gapEnd : Vec) (edge : Edge)
    (p : EdgeProbe) (pen : R) (n : Vec) :
  probeEdge ball container gapStart gapEnd edge = Some p ->
  Baseline.edgeContact ball p = Some (pen, n) ->
  0 <= Vector2D.dot n (edgePerp p)
  /\ 0 <= Vector2D.dot (edgePerp p)
            (Vector2D.sub
               (Vector2D.scale (Vector2D.add (start edge) (end_ edge))
                               (1 / 2))
               (Container.getCenter container)).
Proof.
  intros Hprobe Hcontact.
  destruct (probeEdge_fields _ _ _ _ _ _ Hprobe)
    as (_ & _ & _ & _ & Hout & Hinside).
  split; [|exact Hout].
  assert (Hself : 0 <= Vector2D.dot (edgePerp p) (edgePerp p))
    by (unfold Vector2D.dot; nra).
  unfold Baseline.edgeContact in Hcontact.
  destruct (Rltb (1 / 10000) (distance p)) eqn:Hd.
  - destruct (ballIsInside p) eqn:Hin.
    + destruct (_ || _); [|discriminate]. injection Hcontact as _ <-.
      symmetry in Hinside. apply Rltb_true_iff in Hinside.
      unfold Vector2D.dot, Vector2D.scale in *.
      cbn [Vector2D.x Vector2D.y] in *. lra.
    + cbn [andb orb negb] in Hcontact. injection Hcontact as _ <-.
      symmetry in Hinside. apply Rltb_false_iff in Hinside.
      exact Hinside.
  - rewrite Hinside in Hcontact.
    destruct (_ || _); [|discriminate]. injection Hcontact as _ <-.
    exact Hself.
Qed.

Lemma escapedBall_contact1 :
  Baseline.edgeContact escapedBall
    (mkProbe (Vector2D.mk 0 3) 3 (Vector2D.mk 0 1) false)
  = Some (4, Vector2D.mk 0 1).
Proof. eval_contact. Qed.

(** Edge 1 of the box and the ball three units outside it. *)
Lemma baseline_normal_points_outward_witness :
  let p := mkProbe (Vector2D.mk 0 3) 3 (Vector2D.mk 0 1) false in
  (probeEdge escapedBall box boxGapStart boxGapEnd boxEdge1 = Some p
   /\ Baseline.edgeContact escapedBall p = Some (4, Vector2D.mk 0 1))
  /\ 0 <= Vector2D.dot (Vector2D.mk 0 1) (edgePerp p)
  /\ 0 <= Vector2D.dot (edgePerp p)
            (Vector2D.sub
               (Vector2D.scale
                  (Vector2D.add (start boxEdge1) (end_ boxEdge1)) (1 / 2))
               (Container.getCenter box)).
Proof.
  intros p.
  split; [exact (conj escapedBall_probe1 escapedBall_contact1)|].
  exact (baseline_normal_points_outward escapedBall box boxGapStart
           boxGapEnd boxEdge1 p 4 (Vector2D.mk 0 1) escapedBall_probe1
           escapedBall_contact1).
Defined.

(** ** Ball against container: a ball at the centre *)







(** ** The container: shape of the square *)

Lemma magnitude_abs (v : Vec) (m : R) :
  Vector2D.magnitudeSquared v = m * m -> Vector2D.magnitude v = Rabs m.
Proof.
  intros Hsq. unfold Vector2D.magnitude. rewrite Hsq.
  apply (sqrt_Rsqr_abs m).
Qed.

(** X10.  At every rotation angle the four edges of [getWorldEdges] form
    a closed square: each edge ends where the next one starts, the last
    one where the first starts, every edge has the length
    [|sideLength|], and consecutive edges are perpendicular. *)
Theorem edges_form_a_closed_square (c : Container.t) :
  exists e0 e1 e2 e3,
    Container.getWorldEdges c = [e0; e1; e2; e3]
    /\ end_ e0 = start e1 /\ end_ e1 = start e2
    /\ end_ e2 = start e3 /\ end_ e3 = start e0
    /\ (forall e, In e [e0; e1; e2; e3] ->
                  Vector2D.magnitude (Vector2D.sub (end_ e) (start e))
                  = Rabs (Container.sideLength c))
    /\ (forall a b,
          In (a, b) [(e0, e1); (e1, e2); (e2, e3); (e3, e0)] ->
          Vector2D.dot (Vector2D.sub (end_ a) (start a))
                       (Vector2D.sub (end_ b) (start b)) = 0).
Proof.
  pose proof (getWorldEdges_unfold c) as Hedges. cbv zeta in Hedges.
  eexists _, _, _, _. split; [exact Hedges|].
  split; [reflexivity|]. split; [reflexivity|].
  split; [reflexivity|]. split; [reflexivity|]. split.
  - intros e Hin. apply magnitude_abs.
    apply (edge_magnitudeSquared c). rewrite Hedges. exact Hin.
  - intros a b Hin.
    repeat (destruct Hin as [Hin | Hin];
            [injection Hin as <- <-;
             unfold Vector2D.dot, Vector2D.sub, worldCorner;
             cbn [start end_ Vector2D.x Vector2D.y]; ring|]).
    destruct Hin.
Qed.




(** ** The container: the geometry is periodic in the angle *)

Lemma cos_sin_turns (x : R) (turns : Z) :
  cos (x + IZR turns * (2 * PI)) = cos x
  /\ sin (x + IZR turns * (2 * PI)) = sin x.
Proof.
  destruct (Z_le_gt_dec 0 turns) as [Hpos | Hneg].
  - rewrite <- (Z2Nat.id turns Hpos), <- INR_IZR_INZ.
    replace (x + INR (Z.to_nat turns) * (2 * PI))
      with (x + 2 * INR (Z.to_nat turns) * PI) by ring.
    split; [apply cos_period | apply sin_period].
  - set (y := x + IZR turns * (2 * PI)).
    assert (Hx : x = y + 2 * INR (Z.to_nat (- turns)) * PI).
    { rewrite INR_IZR_INZ, Z2Nat.id by lia. rewrite opp_IZR.
      unfold y. ring. }
    clearbody y.
    split; rewrite Hx; [rewrite cos_period | rewrite sin_period];
      reflexivity.
Qed.

(** X12.  The geometry queries are periodic in the rotation angle: a
    whole number of turns added to the angle changes neither the
    corners, nor the edges, nor the gap endpoints. *)
Theorem geometry_is_periodic (c : Container.t) (angle : R) (turns : Z) :
  let c1 := atAngle c angle in
  let c2 := atAngle c (angle + IZR turns * (2 * PI)) in
  Container.getWorldCorners c2 = Container.getWorldCorners c1
  /\ Container.getWorldEdges c2 = Container.getWorldEdges c1
  /\ Container.getGapBoundaries c2 = Container.getGapBoundaries c1.
Proof.
  intros c1 c2.
  destruct (cos_sin_turns angle turns) as [Hcos Hsin].
  assert (Hcorners :
            Container.getWorldCorners c2 = Container.getWorldCorners c1).
  { unfold Container.getWorldCorners, c1, c2, atAngle.
    cbn [Container.sideLength Container.currentAngleRad Container.center].
    rewrite Hcos, Hsin. reflexivity. }
  assert (Hedges : Container.getWorldEdges c2 = Container.getWorldEdges c1).
  { unfold Container.getWorldEdges. rewrite Hcorners. reflexivity. }
  split; [exact Hcorners|]. split; [exact Hedges|].
  unfold Container.getGapBoundaries. rewrite Hedges. reflexivity.
Qed.

(** X13.  [Container::update] turns the square by the angle
    [degToRad (rotationSpeed * deltaTime)] exactly: with the wrap of
    [normalizeAngle] as modelled, the corners, edges and gap endpoints
    after the update are those of the container at the unwrapped
    angle. *)
Theorem Container_update_turns_geometry (deltaTime : R) (c : Container.t) :
  let unwrapped :=
    atAngle c (Container.currentAngleRad c
               + MathUtils.degToRad (Container.rotationSpeed c * deltaTime))
  in
  let c' := Container.update deltaTime c in
  Container.getWorldCorners c' = Container.getWorldCorners unwrapped
  /\ Container.getWorldEdges c' = Container.getWorldEdges unwrapped
  /\ Container.getGapBoundaries c' = Container.getGapBoundaries unwrapped.
Proof.
  intros unwrapped c'.
  set (angle := Container.currentAngleRad c
                + MathUtils.degToRad (Container.rotationSpeed c * deltaTime))
    in *.
  assert (Hc' : c' = atAngle c (angle
                                + IZR (- Int_part (angle / MathUtils.TWO_PI))
                                  * (2 * PI))).
  { unfold c', Container.update, atAngle. fold angle. f_equal.
    unfold MathUtils.normalizeAngle. rewrite opp_IZR.
    unfold MathUtils.TWO_PI. ring. }
  rewrite Hc'. clear Hc'.
  destruct (cos_sin_turns angle (- Int_part (angle / MathUtils.TWO_PI)))
    as [Hcos Hsin].
  assert (Hcorners :
            Container.getWorldCorners
              (atAngle c (angle
                          + IZR (- Int_part (angle / MathUtils.TWO_PI))
                            * (2 * PI)))
            = Container.getWorldCorners unwrapped).
  { unfold Container.getWorldCorners, unwrapped, atAngle.
    cbn [Container.sideLength Container.currentAngleRad Container.center].
    rewrite Hcos, Hsin. reflexivity. }
  assert (Hedges :
            Container.getWorldEdges
              (atAngle c (angle
                          + IZR (- Int_part (angle / MathUtils.TWO_PI))
                            * (2 * PI)))
            = Container.getWorldEdges unwrapped).
  { unfold Container.getWorldEdges. rewrite Hcorners. reflexivity. }
  split; [exact Hcorners|]. split; [exact Hedges|].
  unfold Container.getGapBoundaries. rewrite Hedges. reflexivity.
Qed.

(** ** The container: points in the gap *)

Lemma array_at_gap_edge (c : Container.t) (gapEdge : Edge) :
  array_at (Container.getWorldEdges c) (Container.gapSide c) = Some gapEdge ->
  In gapEdge (Container.getWorldEdges c) /\ hasGap gapEdge = true.
Proof.
  unfold array_at.
  destruct (Container.gapSide c <? 0)%Z eqn:Hneg; [discriminate|].
  apply Z.ltb_ge in Hneg. intros Hnth.
  split; [exact (nth_error_In _ _ Hnth)|].
  rewrite getWorldEdges_unfold in Hnth. cbv zeta in Hnth.
  destruct (Z.to_nat (Container.gapSide c)) as [|[|[|[|k]]]] eqn:Hk;
    cbn [nth_error] in Hnth; try (destruct k; discriminate);
    injection Hnth as <-;
    rewrite <- (Z2Nat.id (Container.gapSide c) Hneg), Hk; reflexivity.
Qed.

Lemma unit_direction (v : Vec) (L : R) :
  Vector2D.magnitude v = L -> 0 < L ->
  Vector2D.dot (Vector2D.div v L) (Vector2D.div v L) = 1.
Proof.
  intros HL Hpos. pose proof (magnitude_square v) as Hsq. rewrite HL in Hsq.
  unfold Vector2D.dot, Vector2D.div, Vector2D.magnitudeSquared in *.
  cbn [Vector2D.x Vector2D.y].
  transitivity ((Vector2D.x v * Vector2D.x v + Vector2D.y v * Vector2D.y v)
                / (L * L)).
  - field. lra.
  - rewrite <- Hsq. field. lra.
Qed.

(** Two points of a line with unit direction [u] are as far apart as
    their abscissas. *)
Lemma line_distance (s0 u : Vec) (a b : R) :
  Vector2D.dot u u = 1 ->
  Vector2D.distance (Vector2D.add s0 (Vector2D.scale u a))
                    (Vector2D.add s0 (Vector2D.scale u b))
  = Rabs (a - b).
Proof.
  intros Hu. unfold Vector2D.distance. apply magnitude_abs.
  unfold Vector2D.dot in Hu.
  unfold Vector2D.magnitudeSquared, Vector2D.sub, Vector2D.add,
    Vector2D.scale.
  cbn [Vector2D.x Vector2D.y].
  transitivity ((a - b) * (a - b)
                * (Vector2D.x u * Vector2D.x u + Vector2D.y u * Vector2D.y u)).
  - ring.
  - rewrite Hu. ring.
Qed.

(** [isPointInGap] sees a point through its abscissa along the gap
    edge. *)
Lemma isPointInGap_projection (c : Container.t) (gapEdge : Edge)
    (point : Vec) :
  array_at (Container.getWorldEdges c) (Container.gapSide c) = Some gapEdge ->
  1 / 10000 < Container.sideLength c ->
  let s := Container.sideLength c in
  let u := Vector2D.div (Vector2D.sub (end_ gapEdge) (start gapEdge)) s in
  let gapStartDist := (s - s * Container.gapSizeFraction c) / 2 in
  let gapEndDist := gapStartDist + s * Container.gapSizeFraction c in
  let projection := Vector2D.dot (Vector2D.sub point (start gapEdge)) u in
  Vector2D.dot u u = 1
  /\ Container.getGapBoundaries c
     = Some (Vector2D.add (start gapEdge) (Vector2D.scale u gapStartDist),
             Vector2D.add (start gapEdge) (Vector2D.scale u gapEndDist))
  /\ Container.isPointInGap c point
     = Some (Rleb (Rabs (projection - gapStartDist)
                   + Rabs (projection - gapEndDist))
                  (Rabs (gapStartDist - gapEndDist) + 1 / 100)).
Proof.
  intros Hat Hs s u gapStartDist gapEndDist projection.
  destruct (array_at_gap_edge c gapEdge Hat) as [Hin _].
  pose proof (edge_magnitude c gapEdge ltac:(lra) Hin) as Hmag.
  assert (Hu : Vector2D.dot u u = 1)
    by (apply unit_direction; [exact Hmag | unfold s; lra]).
  assert (Hnorm : Vector2D.normalized
                    (Vector2D.sub (end_ gapEdge) (start gapEdge)) = u).
  { unfold Vector2D.normalized. rewrite Hmag, Rltb_true by lra.
    reflexivity. }
  assert (Hgap : Container.getGapBoundaries c
                 = Some (Vector2D.add (start gapEdge)
                                      (Vector2D.scale u gapStartDist),
                         Vector2D.add (start gapEdge)
                                      (Vector2D.scale u gapEndDist))).
  { unfold Container.getGapBoundaries. rewrite Hat. cbv zeta.
    rewrite Hnorm, Hmag. reflexivity. }
  split; [exact Hu|]. split; [exact Hgap|].
  unfold Container.isPointInGap. rewrite Hgap, Hat. cbv zeta.
  rewrite Hnorm. fold projection.
  rewrite !(line_distance _ _ _ _ Hu). reflexivity.
Qed.



Lemma gapBall_isPointInGap :
  Container.isPointInGap box (Ball.position gapBall) = Some true.
Proof.
  unfold Container.isPointInGap. rewrite box_gap, box_edges.
  unfold_scene.
  cbn [array_at Z.ltb Z.compare Container.gapSide Z.to_nat nth_error
       start end_ Ball.position].
  unfold_vec. repeat eval_step. reflexivity.
Qed.

(** X15.  [isPointInGap] and the detector agree on the opening: in a
    container with a gap fraction between 0 and 1, a ball whose centre
    [isPointInGap] accepts is never stopped by the gap-bearing edge.
    The detector's turn on that edge is a [continue] in both files,
    whatever the ball's radius. *)
Theorem isPointInGap_opens_the_detector (c : Container.t) (ball : Ball.t)
    (gapEdge : Edge) (gapStart gapEnd : Vec) :
  array_at (Container.getWorldEdges c) (Container.gapSide c) = Some gapEdge ->
  1 / 10000 < Container.sideLength c ->
  0 <= Container.gapSizeFraction c <= 1 ->
  Container.getGapBoundaries c = Some (gapStart, gapEnd) ->
  Container.isPointInGap c (Ball.position ball) = Some true ->
  probeEdge ball c gapStart gapEnd gapEdge = None
  /\ (forall acc,
        Baseline.edgeStep ball c gapStart gapEnd acc gapEdge = acc)
  /\ (forall best,
        Rev002.edgeStep ball c gapStart gapEnd best gapEdge = best).
Proof.
  intros Hat Hs Hf Hgap Hin.
  destruct (array_at_gap_edge c gapEdge Hat) as [Hedge Hhas].
  pose proof (edge_magnitude c gapEdge ltac:(lra) Hedge) as Hmag.
  destruct (isPointInGap_projection c gapEdge (Ball.position ball) Hat Hs)
    as (Hu & Hgap' & Hin').
  cbv zeta in Hu, Hgap', Hin'.
  rewrite Hgap in Hgap'. injection Hgap' as -> ->.
  rewrite Hin in Hin'. injection Hin' as Hin'. symmetry in Hin'.
  apply Rleb_true_iff in Hin'.
  assert (Hnone : probeEdge ball c
                    (Vector2D.add (start gapEdge)
                       (Vector2D.scale
                          (Vector2D.div
                             (Vector2D.sub (end_ gapEdge) (start gapEdge))
                             (Container.sideLength c))
                          ((Container.sideLength c
                            - Container.sideLength c
                              * Container.gapSizeFraction c) / 2)))
                    (Vector2D.add (start gapEdge)
                       (Vector2D.scale
                          (Vector2D.div
                             (Vector2D.sub (end_ gapEdge) (start gapEdge))
                             (Container.sideLength c))
                          ((Container.sideLength c
                            - Container.sideLength c
                              * Container.gapSizeFraction c) / 2
                           + Container.sideLength c
                             * Container.gapSizeFraction c)))
                    gapEdge = None).
  { apply probeEdge_in_gap; [exact Hhas|].
    unfold closestPointOnEdge. rewrite Hmag.
    rewrite !(line_distance _ _ _ _ Hu).
    set (s := Container.sideLength c) in *.
    set (projection :=
           Vector2D.dot (Vector2D.sub (Ball.position ball) (start gapEdge))
                        _) in *.
    set (gapStartDist := (s - s * Container.gapSizeFraction c) / 2) in *.
    set (gapEndDist := gapStartDist + s * Container.gapSizeFraction c) in *.
    assert (Hlo : 0 <= gapStartDist) by (unfold gapStartDist; nra).
    assert (Horder : gapStartDist <= gapEndDist)
      by (unfold gapEndDist; nra).
    assert (Hhi : gapEndDist <= s)
      by (unfold gapEndDist, gapStartDist; nra).
    clearbody gapStartDist gapEndDist projection.
    unfold MathUtils.clamp.
    destruct (Rltb projection 0) eqn:Hneg;
      [|destruct (Rltb s projection) eqn:Hbig];
      rewrite ?Rltb_true_iff, ?Rltb_false_iff in *;
      revert Hin'; unfold Rabs; repeat destruct Rcase_abs; lra. }
  split; [exact Hnone|].
  split; intros acc; unfold Baseline.edgeStep, Rev002.edgeStep;
    rewrite Hnone; reflexivity.
Qed.

(** The box and the ball at the middle of its gap. *)
Lemma isPointInGap_opens_the_detector_witness :
  (array_at (Container.getWorldEdges box) (Container.gapSide box)
   = Some boxEdge0
   /\ 1 / 10000 < Container.sideLength box
   /\ 0 <= Container.gapSizeFraction box <= 1
   /\ Container.getGapBoundaries box = Some (boxGapStart, boxGapEnd)
   /\ Container.isPointInGap box (Ball.position gapBall) = Some true)
  /\ probeEdge gapBall box boxGapStart boxGapEnd boxEdge0 = None
  /\ (forall acc,
        Baseline.edgeStep gapBall box boxGapStart boxGapEnd acc boxEdge0
        = acc)
  /\ (forall best,
        Rev002.edgeStep gapBall box boxGapStart boxGapEnd best boxEdge0
        = best).
Proof.
  assert (H1 : array_at (Container.getWorldEdges box)
                        (Container.gapSide box) = Some boxEdge0)
    by (rewrite box_edges; reflexivity).
  assert (H2 : 1 / 10000 < Container.sideLength box) by (cbn; lra).
  assert (H3 : 0 <= Container.gapSizeFraction box <= 1) by (cbn; lra).
  split; [exact (conj H1 (conj H2 (conj H3
                   (conj box_gap gapBall_isPointInGap))))|].
  exact (isPointInGap_opens_the_detector box gapBall boxEdge0 boxGapStart
           boxGapEnd H1 H2 H3 box_gap gapBall_isPointInGap).
Defined.

(** ** The ball manager: spawning *)

(** X16.  [wouldCollideWithBalls] answers true exactly when some ball of
    the vector is closer to the position than twice the sum of the
    spawn radius and its own radius; on an empty vector it answers
    false. *)
Theorem wouldCollideWithBalls_iff (bs : list Ball.t) (ballRadius : R)
    (position : Vec) :
  BallManager.wouldCollideWithBalls bs ballRadius position = true
  <-> exists ball,
        In ball bs
        /\ Vector2D.distance position (Ball.position ball)
           < (ballRadius + Ball.radius ball) * 2.
Proof.
  induction bs as [|b rest IH]; simpl.
  - split; [discriminate | intros (ball & [] & _)].
  - destruct (Rltb _ _) eqn:Hlt.
    + apply Rltb_true_iff in Hlt. split; [|reflexivity].
      intros _. exists b. split; [now left | exact Hlt].
    + apply Rltb_false_iff in Hlt. rewrite IH. split.
      * intros (ball & Hin & Hd). exists ball. split; [now right|exact Hd].
      * intros (ball & [<- | Hin] & Hd); [lra|].
        exists ball. split; assumption.
Qed.

Lemma wouldCollideWithBalls_app (bs1 bs2 : list Ball.t) (ballRadius : R)
    (position : Vec) :
  BallManager.wouldCollideWithBalls (bs1 ++ bs2) ballRadius position
  = BallManager.wouldCollideWithBalls bs1 ballRadius position
    || BallManager.wouldCollideWithBalls bs2 ballRadius position.
Proof.
  induction bs1 as [|b rest IH]; simpl; [reflexivity|].
  destruct (Rltb _ _); [reflexivity | exact IH].
Qed.

Lemma spawnReplacementLoop_balls (rnd : nat -> Vec * SDL_Color)
    (remaining i : nat) (m : BallManager.t) :
  let m' := BallManager.spawnReplacementLoop rnd i remaining m in
  BallManager.balls m'
  = BallManager.balls m
    ++ map (fun k =>
              Ball.make (BallManager.spawnCenter m) (fst (rnd k))
                        (BallManager.ballRadius m) (snd (rnd k)))
           (seq i remaining)
  /\ BallManager.pendingRespawnCount m' = BallManager.pendingRespawnCount m
  /\ BallManager.spawnCenter m' = BallManager.spawnCenter m
  /\ BallManager.ballRadius m' = BallManager.ballRadius m.
Proof.
  revert i m. induction remaining as [|remaining IH]; intros i m.
  - simpl. rewrite app_nil_r. repeat split.
  - cbn [BallManager.spawnReplacementLoop seq map].
    destruct (IH (S i)
                (BallManager.mk (BallManager.spawnCenter m)
                   (BallManager.ballRadius m)
                   (BallManager.balls m
                    ++ [BallManager.createRandomBall m (fst (rnd i))
                          (snd (rnd i)) (BallManager.spawnCenter m)])
                   (BallManager.pendingRespawnCount m)))
      as (Hballs & Hpending & Hcenter & Hradius).
    cbn [BallManager.balls BallManager.pendingRespawnCount
         BallManager.spawnCenter BallManager.ballRadius] in *.
    rewrite Hballs, <- app_assoc. repeat split; assumption.
Qed.

(** X17.  [spawnReplacementBalls(count)] appends exactly [count] balls
    behind the existing ones, each at the spawn centre with the
    manager's ball radius and with the draws of its turn, and leaves the
    pending counter alone; [spawnInitialBall] is the case [count = 1]. *)
Theorem spawnReplacementBalls_appends (rnd : nat -> Vec * SDL_Color)
    (count : nat) (m : BallManager.t) :
  let m' := BallManager.spawnReplacementBalls rnd count m in
  BallManager.balls m'
  = BallManager.balls m
    ++ map (fun k =>
              Ball.make (BallManager.spawnCenter m) (fst (rnd k))
                        (BallManager.ballRadius m) (snd (rnd k)))
           (seq 0 count)
  /\ BallManager.getBallCount m'
     = (BallManager.getBallCount m + count)%nat
  /\ BallManager.pendingRespawnCount m' = BallManager.pendingRespawnCount m
  /\ BallManager.spawnInitialBall (fst (rnd 0%nat)) (snd (rnd 0%nat)) m
     = BallManager.spawnReplacementBalls rnd 1 m.
Proof.
  intros m'.
  destruct (spawnReplacementLoop_balls rnd count 0 m)
    as (Hballs & Hpending & _).
  fold (BallManager.spawnReplacementBalls rnd count m) in Hballs, Hpending.
  fold m' in Hballs, Hpending.
  split; [exact Hballs|]. split; [|split; [exact Hpending | reflexivity]].
  unfold BallManager.getBallCount. rewrite Hballs.
  rewrite length_app, length_map, length_seq. reflexivity.
Qed.

Section BallManagerSpawning.

Variable isOffScreen : Ball.t -> R -> R -> bool.
Variable to_counter : Z -> Z.

Lemma filter_all_true {A : Type} (f : A -> bool) (l : list A) :
  (forall a, In a l -> f a = true) -> filter f l = l.
Proof.
  induction l as [|a l IH]; intros Hall; [reflexivity|].
  simpl. rewrite (Hall a (or_introl eq_refl)). f_equal.
  apply IH. intros b Hin. apply Hall. now right.
Qed.

Lemma filter_none_true {A : Type} (f : A -> bool) (l : list A) :
  (forall a, In a l -> f a = false) -> filter f l = [].
Proof.
  induction l as [|a l IH]; intros Hall; [reflexivity|].
  simpl. rewrite (Hall a (or_introl eq_refl)).
  apply IH. intros b Hin. apply Hall. now right.
Qed.

(** X18.  An update that finds every ball on screen and no pending
    respawn changes nothing: the manager is returned as it was. *)
Theorem BallManager_update_idle (screenWidth screenHeight : R)
    (respawnCount : Z) (rndVelocity : Vec) (rndColor : SDL_Color)
    (m : BallManager.t) :
  (forall b, In b (BallManager.balls m) ->
             isOffScreen b screenWidth screenHeight = false) ->
  (BallManager.pendingRespawnCount m <= 0)%Z ->
  BallManager.update isOffScreen to_counter screenWidth screenHeight
                     respawnCount rndVelocity rndColor m
  = m.
Proof.
  intros Hon Hpending. unfold BallManager.update.
  rewrite eraseOffScreen_filter.
  rewrite (filter_all_true
             (fun b => negb (isOffScreen b screenWidth screenHeight)))
    by (intros b Hin; rewrite (Hon b Hin); reflexivity).
  rewrite filter_none_true by exact Hon.
  cbn [length Nat.add]. unfold BallManager.enqueue. cbn [Nat.ltb Nat.leb].
  assert (Hz : (0 <? BallManager.pendingRespawnCount m)%Z = false)
    by (apply Z.ltb_ge; exact Hpending).
  rewrite Hz. cbn [andb]. destruct m; reflexivity.
Qed.

(** X19.  The ball an update spawns blocks the spawn point: when an
    update has appended its ball, the manager's ball radius is positive
    and the new ball is on screen, the next update, for the same screen
    and whatever its draws and respawn count, removes nothing and spawns
    nothing. *)
Theorem BallManager_update_spawns_once (screenWidth screenHeight : R)
    (respawnCount respawnCount' : Z) (rndVelocity rndVelocity' : Vec)
    (rndColor rndColor' : SDL_Color) (m : BallManager.t) :
  let kept :=
    filter (fun b => negb (isOffScreen b screenWidth screenHeight))
           (BallManager.balls m) in
  let ball :=
    BallManager.createRandomBall m rndVelocity rndColor
                                 (BallManager.spawnCenter m) in
  let m1 :=
    BallManager.update isOffScreen to_counter screenWidth screenHeight
                       respawnCount rndVelocity rndColor m in
  let m2 :=
    BallManager.update isOffScreen to_counter screenWidth screenHeight
                       respawnCount' rndVelocity' rndColor' m1 in
  0 < BallManager.ballRadius m ->
  BallManager.balls m1 = kept ++ [ball] ->
  isOffScreen ball screenWidth screenHeight = false ->
  BallManager.balls m2 = BallManager.balls m1
  /\ BallManager.pendingRespawnCount m2 = BallManager.pendingRespawnCount m1.
Proof.
  intros kept ball m1 m2 Hradius Hspawned Hon.
  assert (Hconfig : BallManager.spawnCenter m1 = BallManager.spawnCenter m
                    /\ BallManager.ballRadius m1 = BallManager.ballRadius m).
  { unfold m1, BallManager.update.
    destruct (BallManager.eraseOffScreen _ _ _ _ _) as [k n].
    destruct (_ && _); split; reflexivity. }
  destruct Hconfig as [Hcenter Hrad].
  assert (Hkept : filter (fun b => negb (isOffScreen b screenWidth
                                           screenHeight))
                         (BallManager.balls m1) = BallManager.balls m1).
  { apply filter_all_true. intros b Hin. rewrite Hspawned in Hin.
    apply in_app_or in Hin. destruct Hin as [Hin | [<- | []]].
    - apply filter_In in Hin. tauto.
    - rewrite Hon. reflexivity. }
  assert (Hnone : filter (fun b => isOffScreen b screenWidth screenHeight)
                         (BallManager.balls m1) = []).
  { apply filter_none_true. intros b Hin. rewrite Hspawned in Hin.
    apply in_app_or in Hin. destruct Hin as [Hin | [<- | []]].
    - apply filter_In in Hin. destruct Hin as [_ Hin].
      now apply negb_true_iff in Hin.
    - exact Hon. }
  assert (Hblocked : BallManager.wouldCollideWithBalls
                       (BallManager.balls m1) (BallManager.ballRadius m1)
                       (BallManager.spawnCenter m1) = true).
  { rewrite Hspawned, wouldCollideWithBalls_app, Hcenter, Hrad.
    apply orb_true_iff. right. cbn [BallManager.wouldCollideWithBalls].
    rewrite Rltb_true; [reflexivity|].
    unfold ball, BallManager.createRandomBall, Ball.make,
      Vector2D.distance.
    cbn [Ball.position Ball.radius].
    rewrite (magnitude_eq _ 0); [lra | lra |].
    unfold Vector2D.magnitudeSquared, Vector2D.sub. simpl. ring. }
  unfold m2, BallManager.update.
  rewrite eraseOffScreen_filter, Hkept, Hnone, Hblocked.
  cbn [length Nat.add negb]. rewrite andb_false_r.
  cbn [BallManager.balls BallManager.pendingRespawnCount].
  split; reflexivity.
Qed.

End BallManagerSpawning.

Lemma isOffScreenBy_on_screen (k : R) (b : Ball.t) (W H : R) :
  - (k * W) <= Vector2D.x (Ball.position b) <= k * W ->
  - (k * H) <= Vector2D.y (Ball.position b) <= k * H ->
  isOffScreenBy k b W H = false.
Proof.
  intros Hx Hy. unfold isOffScreenBy.
  rewrite !Rltb_false by lra. reflexivity.
Qed.

(** One ball on an 800 x 600 screen and an empty queue. *)
Lemma BallManager_update_idle_witness :
  let near := Ball.make (Vector2D.mk 100 0) (Vector2D.mk 0 1) 10 white in
  let m := BallManager.mk (Vector2D.mk 400 300) 10 [near] 0 in
  ((forall b, In b (BallManager.balls m) ->
              isOffScreenBy 2 b 800 600 = false)
   /\ (BallManager.pendingRespawnCount m <= 0)%Z)
  /\ BallManager.update (isOffScreenBy 2) int_of_size_t 800 600 3
                        (Vector2D.mk 3 4) white m
     = m.
Proof.
  intros near m.
  assert (H1 : forall b, In b (BallManager.balls m) ->
                         isOffScreenBy 2 b 800 600 = false).
  { intros b [<- | []]. apply isOffScreenBy_on_screen; cbn; lra. }
  assert (H2 : (BallManager.pendingRespawnCount m <= 0)%Z) by (cbn; lia).
  split; [exact (conj H1 H2)|].
  exact (BallManager_update_idle (isOffScreenBy 2) int_of_size_t 800 600 3
           (Vector2D.mk 3 4) white m H1 H2).
Defined.

(** An empty manager with one pending respawn: the first update spawns
    at (400, 300), the second one finds the spawn point taken. *)
Lemma BallManager_update_spawns_once_witness :
  let m := BallManager.mk (Vector2D.mk 400 300) 10 [] 1 in
  let kept :=
    filter (fun b => negb (isOffScreenBy 2 b 800 600))
           (BallManager.balls m) in
  let ball :=
    BallManager.createRandomBall m (Vector2D.mk 3 4) white
                                 (BallManager.spawnCenter m) in
  let m1 :=
    BallManager.update (isOffScreenBy 2) int_of_size_t 800 600 2
                       (Vector2D.mk 3 4) white m in
  let m2 :=
    BallManager.update (isOffScreenBy 2) int_of_size_t 800 600 5
                       (Vector2D.mk 0 1) white m1 in
  (0 < BallManager.ballRadius m
   /\ BallManager.balls m1 = kept ++ [ball]
   /\ isOffScreenBy 2 ball 800 600 = false)
  /\ BallManager.balls m2 = BallManager.balls m1
  /\ BallManager.pendingRespawnCount m2 = BallManager.pendingRespawnCount m1.
Proof.
  intros m kept ball m1 m2.
  assert (H1 : 0 < BallManager.ballRadius m) by (cbn; lra).
  assert (H2 : BallManager.balls m1 = kept ++ [ball]) by reflexivity.
  assert (H3 : isOffScreenBy 2 ball 800 600 = false)
    by (apply isOffScreenBy_on_screen; cbn; lra).
  split; [exact (conj H1 (conj H2 H3))|].
  exact (BallManager_update_spawns_once (isOffScreenBy 2) int_of_size_t
           800 600 2 5 (Vector2D.mk 3 4) (Vector2D.mk 0 1) white white m
           H1 H2 H3).
Defined.

(** ** The circular container of part_001 *)

Section CircularContainerFacts.

Variable CircleContainer : Type.
Variable getCenter : CircleContainer -> Vec.
Variable getRadius : CircleContainer -> R.
Variable getGapStartAngle getGapEndAngle : CircleContainer -> R.
Variable atan2 : R -> R -> R.
Variable isAngleInRange : R -> R -> R -> bool.

(** X20.  The detector of part_001, on a circular container: a contact
    is reported exactly when the ball's direction from the centre is
    outside the angular gap and the ball's circle crosses the wall, that
    is when the distance of its centre from the container's centre
    differs from the container's radius by less than the ball's radius.
    The penetration is then positive and at most the ball's radius, and
    it is the depth on the side of the wall the centre is on. *)
Theorem rev001_wall_contact (ball : Ball.t) (container : CircleContainer) :
  let delta := Vector2D.sub (Ball.position ball) (getCenter container) in
  let d := Vector2D.magnitude delta in
  let isInGap :=
    isAngleInRange
      (MathUtils.normalizeAngle
         (atan2 (Vector2D.y delta) (Vector2D.x delta)))
      (getGapStartAngle container) (getGapEndAngle container) in
  let info :=
    Rev001.checkContainerCollision CircleContainer getCenter getRadius
      getGapStartAngle getGapEndAngle atan2 isAngleInRange ball container in
  (hasCollision info = true
   <-> isInGap = false
       /\ getRadius container - Ball.radius ball < d
          < getRadius container + Ball.radius ball)
  /\ (hasCollision info = true ->
      0 < penetration info <= Ball.radius ball
      /\ penetration info
         = Ball.radius ball - Rabs (d - getRadius container))
  /\ (hasCollision info = false -> info = noCollision).
Proof.
  intros delta d isInGap info. subst info.
  unfold Rev001.checkContainerCollision.
  fold delta. fold d. fold isInGap.
  destruct isInGap.
  - split; [|split]; [split | |]; try discriminate; try reflexivity.
    intros [H _]. discriminate.
  - destruct (Rltb (getRadius container - Ball.radius ball) d) eqn:Hin;
      destruct (Rleb d (getRadius container)) eqn:Hle;
      destruct (Rltb (getRadius container) d) eqn:Hgt;
      destruct (Rltb d (getRadius container + Ball.radius ball)) eqn:Hout;
      cbn [andb hasCollision penetration];
      rewrite ?Rltb_true_iff, ?Rltb_false_iff, ?Rleb_true_iff,
        ?Rleb_false_iff in *;
      ((split; [|split]);
       [ split;
         [ intros H;
           first [discriminate H | split; [reflexivity | lra]]
         | intros [_ H]; first [reflexivity | lra] ]
       | intros H;
         first [ discriminate H
               | split; [lra | unfold Rabs; destruct Rcase_abs; lra] ]
       | intros H; first [discriminate H | reflexivity] ]).
Qed.

End CircularContainerFacts.

(** ** The thick line of the renderer *)

Lemma drawLines_map (start end_ perp : Vec) (turns : nat) (t : Z) :
  ShapeRenderer.drawLines start end_ perp t turns
  = map (fun k => lineAt start end_ perp (t + Z.of_nat k)) (seq 0 turns).
Proof.
  revert t. induction turns as [|turns IH]; intros t; [reflexivity|].
  cbn [ShapeRenderer.drawLines seq map]. f_equal.
  - unfold lineAt. rewrite Z.add_0_r. reflexivity.
  - rewrite IH, <- seq_shift, map_map. apply map_ext. intros k.
    f_equal. lia.
Qed.

(** X21.  For a thickness that is not negative, [drawThickLine] sets the
    colour first and then draws an odd number of lines: [thickness + 1]
    lines for an even thickness, [thickness] lines for an odd one.  The
    line from [start] to [end] itself is always among them, and every
    line drawn is the line at an offset [t] between minus and plus half
    the thickness. *)
Theorem drawThickLine_calls (start end_ : Vec) (color : SDL_Color)
    (thickness : Z) :
  (0 <= thickness)%Z ->
  let calls := ShapeRenderer.drawThickLine start end_ color thickness in
  let dir := Vector2D.normalized (Vector2D.sub end_ start) in
  let perp := Vector2D.mk (- Vector2D.y dir) (Vector2D.x dir) in
  hd_error calls
  = Some (ShapeRenderer.SDL_SetRenderDrawColor
            (cr color) (cg color) (cb color) (ca color))
  /\ Z.of_nat (length (tl calls))
     = (if Z.even thickness then thickness + 1 else thickness)%Z
  /\ In (ShapeRenderer.SDL_RenderDrawLine
           (ShapeRenderer.float_to_int (Vector2D.x start))
           (ShapeRenderer.float_to_int (Vector2D.y start))
           (ShapeRenderer.float_to_int (Vector2D.x end_))
           (ShapeRenderer.float_to_int (Vector2D.y end_)))
        (tl calls)
  /\ (forall call, In call (tl calls) ->
        exists t : Z,
          (- (thickness / 2) <= t <= thickness / 2)%Z
          /\ call = lineAt start end_ perp t).
Proof.
  intros Hthick calls dir perp. subst calls.
  unfold ShapeRenderer.drawThickLine. fold dir. fold perp.
  rewrite Z.quot_div_nonneg by lia.
  set (half := (thickness / 2)%Z).
  assert (Hhalf : (0 <= half)%Z) by (unfold half; apply Z.div_pos; lia).
  cbn [hd_error tl]. rewrite drawLines_map.
  split; [reflexivity|]. split; [|split].
  - rewrite length_map, length_seq, Z2Nat.id by lia.
    pose proof (Zmod_even thickness) as Heven.
    pose proof (Z.div_mod thickness 2 ltac:(lia)) as Hdm. fold half in Hdm.
    destruct (Z.even thickness); lia.
  - apply in_map_iff. exists (Z.to_nat half). split.
    + replace (- half + Z.of_nat (Z.to_nat half))%Z with 0%Z by lia.
      unfold lineAt, Vector2D.scale. cbn [Vector2D.x Vector2D.y].
      rewrite !Rmult_0_r, !Rplus_0_r. reflexivity.
    + apply in_seq. lia.
  - intros call Hin. apply in_map_iff in Hin.
    destruct Hin as (k & <- & Hk). apply in_seq in Hk.
    exists (- half + Z.of_nat k)%Z. split; [lia | reflexivity].
Qed.

(** A line of thickness 4: five lines are drawn. *)
Lemma drawThickLine_calls_witness :
  let start := Vector2D.mk 0 0 in
  let end_ := Vector2D.mk 10 0 in
  let calls := ShapeRenderer.drawThickLine start end_ white 4 in
  let dir := Vector2D.normalized (Vector2D.sub end_ start) in
  let perp := Vector2D.mk (- Vector2D.y dir) (Vector2D.x dir) in
  (0 <= 4)%Z
  /\ hd_error calls
     = Some (ShapeRenderer.SDL_SetRenderDrawColor
               (cr white) (cg white) (cb white) (ca white))
  /\ Z.of_nat (length (tl calls)) = (if Z.even 4 then 4 + 1 else 4)%Z
  /\ In (ShapeRenderer.SDL_RenderDrawLine
           (ShapeRenderer.float_to_int (Vector2D.x start))
           (ShapeRenderer.float_to_int (Vector2D.y start))
           (ShapeRenderer.float_to_int (Vector2D.x end_))
           (ShapeRenderer.float_to_int (Vector2D.y end_)))
        (tl calls)
  /\ (forall call, In call (tl calls) ->
        exists t : Z,
          (- (4 / 2) <= t <= 4 / 2)%Z
          /\ call = lineAt start end_ perp t).
Proof.
  intros start end_ calls dir perp.
  assert (H : (0 <= 4)%Z) by lia.
  split; [exact H|].
  exact (drawThickLine_calls start end_ white 4 H).
Defined.

(** ** Ball against container: the two files side by side *)

(** X22.  For a centre on the interior side of an edge the two files
    propose the same thing: the same penetration and the same normal,
    or nothing.  They differ on the exterior side only. *)
Theorem interior_proposals_agree (ball : Ball.t) (p : EdgeProbe) :
  ballIsInside p = true ->
  Baseline.edgeContact ball p = Rev002.edgeContact ball p.
Proof.
  intros Hin. unfold Baseline.edgeContact, Rev002.edgeContact.
  rewrite Hin. cbn [andb orb negb]. rewrite orb_false_r.
  destruct (Rltb (distance p) (Ball.radius ball)); reflexivity.
Qed.

(** Edge 1 of the box and the corner ball, one unit inside it. *)
Lemma interior_proposals_agree_witness :
  let p := mkProbe (Vector2D.mk 0 (-1)) 1 (Vector2D.mk 0 1) true in
  ballIsInside p = true
  /\ Baseline.edgeContact cornerBall p = Rev002.edgeContact cornerBall p.
Proof.
  intros p. split; [reflexivity|].
  exact (interior_proposals_agree cornerBall p eq_refl).
Defined.

(** X23.  In src/physics/CollisionDetector.cpp a reported container
    contact of a ball whose radius is not negative has a positive
    penetration, for a centre inside as for a centre outside the
    edge. *)
Theorem baseline_penetration_positive (ball : Ball.t)
    (container : Container.t) (r : CollisionInfo) :
  0 <= Ball.radius ball ->
  Baseline.checkContainerCollision ball container = Some r ->
  hasCollision r = true ->
  0 < penetration r.
Proof.
  intros Hradius Hres Hhas.
  destruct (Container.getGapBoundaries container) as [[gapStart gapEnd]|]
    eqn:Hgap.
  2:{ unfold Baseline.checkContainerCollision in Hres.
      rewrite Hgap in Hres. discriminate. }
  unfold Baseline.checkContainerCollision in Hres. rewrite Hgap in Hres.
  destruct (baseline_fold_shallowest ball container gapStart gapEnd
              (Container.getWorldEdges container) (noCollision, FLT_MAX))
    as (_ & _ & Horigin).
  remember (fold_left _ _ _) as acc eqn:Hacc. clear Hacc.
  injection Hres as <-.
  destruct Horigin as [-> | (_ & Hfst & edge & _ & He)]; [discriminate|].
  rewrite Hfst. cbn [penetration].
  unfold edgeProposal in He.
  destruct (probeEdge ball container gapStart gapEnd edge) as [p|] eqn:Hp;
    [|discriminate].
  destruct (probeEdge_fields _ _ _ _ _ _ Hp) as (_ & _ & Hdist & _).
  pose proof (magnitude_nonneg (toBallFromEdge p)) as Hnonneg.
  unfold Baseline.edgeContact in He.
  destruct (ballIsInside p) eqn:Hin; cbn [andb orb negb] in He.
  - rewrite orb_false_r in He.
    destruct (Rltb (distance p) (Ball.radius ball)) eqn:Hlt; [|discriminate].
    apply Rltb_true_iff in Hlt. injection He as He _. lra.
  - pose proof (probeEdge_outside_distance _ _ _ _ _ _ Hp Hin) as Hd.
    injection He as He _. lra.
Qed.

(** The ball three units outside edge 1 of the box: penetration 4. *)
Lemma baseline_penetration_positive_witness :
  let r := mkInfo true (Vector2D.mk 0 1) 4 in
  (0 <= Ball.radius escapedBall
   /\ Baseline.checkContainerCollision escapedBall box = Some r
   /\ hasCollision r = true)
  /\ 0 < penetration r.
Proof.
  intros r.
  assert (H1 : 0 <= Ball.radius escapedBall) by (cbn; lra).
  split; [exact (conj H1 (conj escapedBall_baseline eq_refl))|].
  exact (baseline_penetration_positive escapedBall box r H1
           escapedBall_baseline eq_refl).
Defined.
